(** * AI-music pipeline: prompts, audio analysis and orchestration

    A shallow embedding of [src/prompts.py], [src/audio_utils.py] and
    [src/pipeline.py].  Python [int] is [Z], Python [float] is the kernel's
    binary64 [float], [str] is [string], a [dict] is an association list in
    insertion order, and a raised exception is the [Raise] branch of
    [result].  Everything behind a library call that the repository does not
    contain (librosa, numpy, pydub, requests, replicate, pandas, the Mersenne
    Twister) is a field of one of the interface classes [PyRandom] and
    [Platform]; the control flow around those calls is the repository's. *)

From Stdlib Require Import ZArith List String Ascii Bool Lia Floats DecimalString.
From Stdlib Require DecimalPos DecimalZ.
Import ListNotations.
Open Scope string_scope.
Open Scope list_scope.
Open Scope Z_scope.
Set Warnings "-register-all".

(** ** Exceptions and fallible computations *)

(** A raised object: its class name and its message, whether its class
    derives from [Exception] (that of [KeyboardInterrupt], [SystemExit] and
    [GeneratorExit] does not, so [except Exception] lets them through), and
    its truth value [bool(e)], which is true unless the class defines
    [__bool__] or [__len__] otherwise. *)
Record exn : Type := MkExn {
  exn_class : string;
  exn_msg : string;
  is_Exception : bool;
  truth : bool
}.

(** An ordinary exception: an instance of a class derived from [Exception]
    that is true, as the built-in ones are. *)
Definition Exn (cls msg : string) : exn :=
  {| exn_class := cls; exn_msg := msg; is_Exception := true; truth := true |}.

Definition KeyboardInterrupt : exn :=
  {| exn_class := "KeyboardInterrupt"; exn_msg := "";
     is_Exception := false; truth := true |}.

Inductive result (A : Type) : Type :=
| Ok (a : A)
| Raise (e : exn).

Arguments Ok {A} a.
Arguments Raise {A} e.

Definition bind {A B : Type} (r : result A) (k : A -> result B) : result B :=
  match r with
  | Ok a => k a
  | Raise e => Raise e
  end.

Notation "x <- r ;; k" := (bind r (fun x => k))
  (at level 61, r at next level, right associativity).

Definition ValueError (msg : string) : exn := Exn "ValueError" msg.
Definition RuntimeError (msg : string) : exn := Exn "RuntimeError" msg.
Definition OverflowError (msg : string) : exn := Exn "OverflowError" msg.
Definition ZeroDivisionError (msg : string) : exn := Exn "ZeroDivisionError" msg.
Definition KeyError (msg : string) : exn := Exn "KeyError" msg.
Definition AttributeError (msg : string) : exn := Exn "AttributeError" msg.
Definition IndexError (msg : string) : exn := Exn "IndexError" msg.
Definition TypeError (msg : string) : exn := Exn "TypeError" msg.

(** ** Python floats *)

Module PyFloat.

(** The binary64 value nearest to an integer; an infinity when the integer
    is out of range. *)
Definition of_Z (z : Z) : float :=
  SF2Prim (binary_normalize prec emax z 0 false).

Definition is_infinite (x : float) : bool := PrimFloat.eqb (PrimFloat.abs x) infinity.

(** [float(z)] for a Python int, also where an int meets a float in
    arithmetic: an int out of range raises. *)
Definition of_int (z : Z) : result float :=
  if is_infinite (of_Z z)
  then Raise (OverflowError "int too large to convert to float")
  else Ok (of_Z z).

(** An integer as an unrounded float. *)
Definition exact (z : Z) : spec_float :=
  match z with
  | Z0 => S754_zero false
  | Zpos p => S754_finite false p 0
  | Zneg p => S754_finite true p 0
  end.

(** The integer [m * 2^e] denotes when [e >= 0], and the pair of it and the
    divisor [2^(-e)] otherwise. *)
Definition scaled (s : bool) (m : positive) (e : Z) : Z * Z :=
  let v := if s then Z.neg m else Z.pos m in
  if 0 <=? e then (v * 2 ^ e, 1) else (v, 2 ^ (- e)).

(** [int(x)]: truncation toward zero; NaN and the infinities raise. *)
Definition to_int (x : float) : result Z :=
  match Prim2SF x with
  | S754_zero _ => Ok 0
  | S754_finite s m e => let '(n, d) := scaled s m e in Ok (Z.quot n d)
  | S754_infinity _ => Raise (OverflowError "cannot convert float infinity to integer")
  | S754_nan => Raise (ValueError "cannot convert float NaN to integer")
  end.

(** [math.ceil(x)]. *)
Definition ceil (x : float) : result Z :=
  match Prim2SF x with
  | S754_zero _ => Ok 0
  | S754_finite s m e => let '(n, d) := scaled s m e in Ok (- ((- n) / d))
  | S754_infinity _ => Raise (OverflowError "cannot convert float infinity to integer")
  | S754_nan => Raise (ValueError "cannot convert float NaN to integer")
  end.

(** [x / y] on floats: Python raises on a zero divisor instead of returning
    an infinity or NaN. *)
Definition div (x y : float) : result float :=
  if PrimFloat.eqb y 0 then Raise (ZeroDivisionError "float division by zero")
  else Ok (PrimFloat.div x y).

(** [a / b] on ints (true division): the quotient of the integers, rounded
    once. *)
Definition int_truediv (a b : Z) : result float :=
  if b =? 0 then Raise (ZeroDivisionError "division by zero")
  else
    let q := SF2Prim (SFdiv prec emax (exact a) (exact b)) in
    if is_infinite q
    then Raise (OverflowError "integer division result too large for a float")
    else Ok q.

(** [n / d] rounded to the nearest integer, a tie to the even one, for
    [0 < d]. *)
Definition round_half_even (n d : Z) : Z :=
  let f := n / d in
  match 2 * (n mod d) ?= d with
  | Lt => f
  | Gt => f + 1
  | Eq => if Z.even f then f else f + 1
  end.

(** [round(x, ndigits)] for [0 <= ndigits]: the exact value of [x] is
    rounded to the nearest decimal numeral with [ndigits] digits after the
    point (a tie to the even digit), and that numeral is converted to the
    nearest float.  NaN and the infinities are returned as they are. *)
Definition round (x : float) (ndigits : nat) : float :=
  match Prim2SF x with
  | S754_finite s m e =>
      let '(n, d) := scaled false m e in
      let p := 10 ^ Z.of_nat ndigits in
      let q := round_half_even (n * p) d in
      if q =? 0 then SF2Prim (S754_zero s)
      else SF2Prim (SFdiv prec emax (S754_finite s (Z.to_pos q) 0) (exact p))
  | _ => x
  end.

(** [x > y]. *)
Definition gtb (x y : float) : bool := PrimFloat.ltb y x.

(** The literal [0.05]: the nearest binary64 value. *)
Definition lit_0_05 : float := 0x1.999999999999ap-5%float.

(** A float that is an ordinary non-negative number: not NaN, not below
    zero.  Every root-mean-square of finite samples is one. *)
Definition nonneg (x : float) : bool := PrimFloat.leb 0 x.

End PyFloat.

(** ** Python's [random] module

    The Mersenne Twister and the selection algorithms of [random.py] are not
    part of the repository; the class records what the library documents.
    [rng_sample g n k] is the list of positions [random.sample] picks from a
    population of [n] elements when asked for [k] of them. *)

Class PyRandom : Type := {
  rng : Type;
  (** [random.seed(a)] and [random.Random(a)]: the state depends on [a] only. *)
  rng_seed : Z -> rng;
  (** [random.Random(None)]: seeded from the operating system. *)
  rng_entropy : rng;
  (** [_randbelow(n)] for [n > 0]. *)
  rng_below : rng -> Z -> Z * rng;
  rng_sample : rng -> nat -> nat -> list nat * rng;
  rng_below_range : forall g n, 0 < n -> 0 <= fst (rng_below g n) < n;
  rng_sample_length : forall g n k, (k <= n)%nat ->
    List.length (fst (rng_sample g n k)) = k;
  rng_sample_NoDup : forall g n k, (k <= n)%nat -> NoDup (fst (rng_sample g n k));
  rng_sample_range : forall g n k i, (k <= n)%nat ->
    In i (fst (rng_sample g n k)) -> (i < n)%nat
}.

Module PyRandomOps.
Section WithRandom.
Context {R : PyRandom}.

(** [random.sample(population, k)]: [ValueError] unless [0 <= k <= len]. *)
Definition sample (g : rng) (population : list string) (k : Z)
  : result (list string) * rng :=
  let n := List.length population in
  if (k <? 0) || (Z.of_nat n <? k)
  then (Raise (ValueError "Sample larger than population or is negative"), g)
  else
    let '(idx, g') := rng_sample g n (Z.to_nat k) in
    (Ok (map (fun i => nth i population "") idx), g').

(** [random.choice(seq)]: [IndexError] on an empty sequence. *)
Definition choice (g : rng) (seq : list string) : result string * rng :=
  match seq with
  | [] => (Raise (IndexError "Cannot choose from an empty sequence"), g)
  | _ =>
      let '(i, g') := rng_below g (Z.of_nat (List.length seq)) in
      (Ok (nth (Z.to_nat i) seq ""), g')
  end.

(** [[random.choice(seq) for _ in range(n)]]. *)
Fixpoint choices (n : nat) (g : rng) (seq : list string)
  : result (list string) * rng :=
  match n with
  | O => (Ok [], g)
  | S n' =>
      match choice g seq with
      | (Raise e, g') => (Raise e, g')
      | (Ok x, g') =>
          match choices n' g' seq with
          | (Raise e, g'') => (Raise e, g'')
          | (Ok xs, g'') => (Ok (x :: xs), g'')
          end
      end
  end.

(** [rng.randint(a, b)]: [a + _randbelow(b - a + 1)], [ValueError] on an
    empty range. *)
Definition randint (g : rng) (a b : Z) : result Z * rng :=
  if b <? a then (Raise (ValueError "empty range for randrange()"), g)
  else let '(i, g') := rng_below g (b - a + 1) in (Ok (a + i), g').

End WithRandom.
End PyRandomOps.

(** ** [src/prompts.py] *)

Module Prompts.

Definition PROMPT_POOL : list string := [
  "Upbeat electronic dance track with bright synths and punchy drums";
  "Lo-fi hip hop beat for studying with warm vinyl crackle";
  "Ambient piano with evolving pads, slow and emotional";
  "Energetic rock with distorted guitars and powerful drums";
  "Funky groove with slap bass and tight rhythm guitar";
  "Epic orchestral with driving strings and heroic brass";
  "Dreamy synthwave with nostalgic 80s vibe";
  "Chill house with deep bass and soft vocal chops";
  "Cinematic trailer with tension and massive hits";
  "Melancholic acoustic guitar ballad";
  "Pulsing techno with minimal melodic elements";
  "Happy ukulele tune with hand claps and whistle";
  "Dark trap beat with 808s and sparse piano";
  "Jazz trio: piano, upright bass, and brushed drums";
  "Latin reggaeton rhythm with catchy hooks";
  "Bossa nova with smooth guitar and soft percussion";
  "Drum and bass with rapid breakbeats and airy pads";
  "K-pop inspired dance-pop with catchy chorus";
  "African afrobeat groove with polyrhythms";
  "Indian classical fusion with sitar and electronic beats";
  "Meditation music with Tibetan bowls and drones";
  "Celtic folk with fiddle and bodhrán";
  "Bluegrass with banjo, mandolin, and fast tempo";
  "Moody R&B slow jam with lush harmonies";
  "Cheerful children’s tune with simple melody";
  "Hardstyle EDM with distorted kicks and anthemic leads";
  "Minimalist piano motif with subtle reverb";
  "Experimental glitch with granular textures";
  "Soulful gospel choir with organ backing";
  "Festive holiday jingle with sleigh bells"
].

Section WithRandom.
Context {R : PyRandom}.

(** [sample_prompts(num, seed)].  The function works on the interpreter's
    global generator: [g] is its state on entry, the second component its
    state on return. *)
Definition sample_prompts (num seed : Z) (g : rng) : result (list string) * rng :=
  let g := rng_seed seed in
  if num <=? Z.of_nat (List.length PROMPT_POOL)
  then PyRandomOps.sample g PROMPT_POOL num
  else PyRandomOps.choices (Z.to_nat num) g PROMPT_POOL.

End WithRandom.
End Prompts.

(** ** External collaborators

    [world] is everything outside the interpreter: the file system, the
    remote service, the clock.  A call that can change it returns the new
    world; a decoder only reads it. *)

Inductive pyval : Type :=
| PNone
| PStr (s : string)
| PList (items : list pyval)
| PDict (entries : list (string * pyval))
  (** Any other object; [url] is what calling its [url] attribute does,
      [None] when it has no callable attribute of that name. *)
| PObject (url : option (result string))
  (** An instance of a subclass of the class of [base] (a [str], a [list]
      or a [dict] with the same content) that has a callable [url]
      attribute. *)
| PSubclass (base : pyval) (url : result string).

(** [out is None]. *)
Definition is_none (out : pyval) : bool :=
  match out with PNone => true | _ => false end.

(** [isinstance(out, str)], [isinstance(out, list)] and
    [isinstance(out, dict)], with the content when the test holds. *)
Fixpoint as_str (out : pyval) : option string :=
  match out with
  | PStr s => Some s
  | PSubclass base _ => as_str base
  | _ => None
  end.

Fixpoint as_list (out : pyval) : option (list pyval) :=
  match out with
  | PList items => Some items
  | PSubclass base _ => as_list base
  | _ => None
  end.

Fixpoint as_dict (out : pyval) : option (list (string * pyval)) :=
  match out with
  | PDict entries => Some entries
  | PSubclass base _ => as_dict base
  | _ => None
  end.

(** [hasattr(out, 'url') and callable(getattr(out, 'url'))], with what the
    call [out.url()] does when the test holds. *)
Definition url_method (out : pyval) : option (result string) :=
  match out with
  | PObject url => url
  | PSubclass _ url => Some url
  | _ => None
  end.

(** A cell of a ledger row or of a loaded table. *)
Inductive cell : Type :=
| CStr (s : string)
| CFloat (f : float).

Definition row : Type := list (string * cell).

(** A [pandas.DataFrame]: its column labels and its rows in order. *)
Record DataFrame : Type := {
  df_columns : list string;
  df_rows : list row
}.

Class Platform : Type := {
  world : Type;
  (** One float32 sample of a buffer decoded by librosa. *)
  sample : Type;
  (** One millisecond of a [pydub.AudioSegment]. *)
  frame : Type;
  (** The body of an HTTP response. *)
  payload : Type;

  (** [librosa.load(path, sr=sr, mono=True)[0]]. *)
  librosa_load : string -> Z -> world -> result (list sample);
  (** [float(np.sqrt(np.mean(segment**2)))] of a non-empty segment. *)
  np_rms : list sample -> float;
  (** [float(librosa.get_duration(y=y, sr=sr))]. *)
  get_duration : list sample -> Z -> result float;
  (** [float(librosa.beat.beat_track(y=y, sr=sr)[0])]. *)
  beat_track_tempo : list sample -> Z -> result float;
  (** [float(np.mean(librosa.feature.rms(y=y)))]. *)
  feature_rms_mean : list sample -> result float;
  (** [float(np.mean(librosa.feature.spectral_centroid(y=y, sr=sr)))]. *)
  feature_spectral_centroid_mean : list sample -> Z -> result float;
  (** [float(np.mean(librosa.feature.zero_crossing_rate(y)))]. *)
  feature_zero_crossing_rate_mean : list sample -> result float;
  (** [float(np.mean(librosa.feature.mfcc(y=y, sr=sr, n_mfcc=13)[0]))]. *)
  feature_mfcc1_mean : list sample -> Z -> result float;

  (** [AudioSegment.from_file(path)]. *)
  from_file : string -> world -> result (list frame);
  (** [AudioSegment.from_file(io.BytesIO(content))]. *)
  from_bytes : payload -> result (list frame);
  (** [audio * loops]: the samples of [audio], [loops] times over.  The
      length of the product in milliseconds is its duration rounded, which
      need not be [loops] times the rounded duration of one copy. *)
  audio_times : list frame -> Z -> list frame;
  (** [segment.fade_in(ms)] and [segment.fade_out(ms)]; pydub refuses some
      durations, and a fade longer than the segment may lengthen it. *)
  fade_in : Z -> list frame -> result (list frame);
  fade_out : Z -> list frame -> result (list frame);
  (** [segment.export(path, format="wav")]. *)
  export_wav : string -> list frame -> world -> result unit * world;
  (** [os.makedirs(path, exist_ok=True)]. *)
  makedirs : string -> world -> result unit * world;
  (** [os.path.exists(path)]. *)
  path_exists : string -> world -> bool;

  (** [requests.get(url, timeout=300)] followed by [raise_for_status()]. *)
  requests_get : string -> world -> result payload * world;
  (** [replicate.run(model, input=input)]. *)
  replicate_run : string -> list (string * string) -> world -> result pyval * world;
  (** [replicate.models.get(model)]: the model object's [version]
      attribute, [None] when it has none. *)
  replicate_models_get : string -> world -> result (option string) * world;
  (** [os.getenv(name)], after [load_dotenv()]. *)
  getenv : string -> world -> option string;
  (** [str(uuid.uuid4())]. *)
  uuid4 : world -> string * world;
  (** [time.perf_counter()]. *)
  perf_counter : world -> float * world;
  (** [time.sleep(seconds)]; a length the clock does not accept (negative,
      NaN, too large) raises. *)
  time_sleep : float -> world -> result unit * world;
  (** [pd.read_csv(path)]. *)
  read_csv : string -> world -> result DataFrame;
  (** [pd.DataFrame(rows).to_csv(path, index=False)]. *)
  to_csv : string -> list row -> world -> result unit * world;
  (** [float(s)] on a string. *)
  float_of_string : string -> result float
}.

(** ** [src/audio_utils.py] *)

Module AudioUtils.

(** What [make_snippet] returns, together with the two things it leaves
    behind: the start offset it chose and the snippet it exported. *)
Record snippet_out (F : Type) : Type := {
  so_return : string * string * float;
  so_start_ms : Z;
  so_snippet : list F
}.

Arguments so_return {F} _.
Arguments so_start_ms {F} _.
Arguments so_snippet {F} _.

Section WithPlatform.
Context {P : Platform} {R : PyRandom}.

Definition len {A : Type} (l : list A) : Z := Z.of_nat (List.length l).

(** [l[a:b]] on a list or an array: a negative position counts from the
    end, and both are brought into [[0, len(l)]]. *)
Definition py_index (n i : Z) : Z :=
  if i <? 0 then Z.max 0 (n + i) else Z.min i n.

Definition py_slice {A : Type} (l : list A) (a b : Z) : list A :=
  let a' := py_index (len l) a in
  let b' := py_index (len l) b in
  firstn (Z.to_nat (b' - a')) (skipn (Z.to_nat a') l).

(** [audio[a:b]] on an [AudioSegment], for [0 <= a]: pydub caps both
    positions at the length of the segment, takes a negative one from the
    end, and then slices the samples as Python slices a sequence. *)
Definition parse_position (n v : Z) : Z :=
  if v <? 0 then n - Z.abs v else v.

Definition slice {A : Type} (l : list A) (a b : Z) : list A :=
  py_slice l (parse_position (len l) (Z.min a (len l)))
             (parse_position (len l) (Z.min b (len l))).

(** [list(range(start, stop, step))]. *)
Definition py_range (start stop step : Z) : result (list Z) :=
  if step =? 0 then Raise (ValueError "range() arg 3 must not be zero")
  else
    let n := if 0 <? step then (stop - start + step - 1) / step
             else (start - stop - step - 1) / (- step) in
    Ok (map (fun i => start + Z.of_nat i * step) (seq 0 (Z.to_nat n))).

Definition ensure_dir (path : string) (w : world) : result unit * world :=
  makedirs path w.

Definition download_audio_to_wav (url target_wav_path : string) (w : world)
  : result string * world :=
  match requests_get url w with
  | (Raise e, w1) => (Raise e, w1)
  | (Ok content, w1) =>
      match from_bytes content with
      | Raise e => (Raise e, w1)
      | Ok audio =>
          match export_wav target_wav_path audio w1 with
          | (Raise e, w2) => (Raise e, w2)
          | (Ok _, w2) => (Ok target_wav_path, w2)
          end
      end
  end.

Definition load_audio_for_features (path : string) (sr : Z) (w : world)
  : result (list sample * Z) :=
  y <- librosa_load path sr w ;; Ok (y, sr).

(** The [try: ... except Exception: tempo_bpm = 0.0] block: an exception
    of the beat tracker reads [0.0]; what is raised and is no [Exception]
    goes on to the caller. *)
Definition tempo_or_zero (y : list sample) (sr : Z) : result float :=
  match beat_track_tempo y sr with
  | Ok tempo => Ok tempo
  | Raise e => if is_Exception e then Ok 0%float else Raise e
  end.

Definition compute_audio_features (wav_path : string) (w : world)
  : result (list (string * float)) :=
  ysr <- load_audio_for_features wav_path 22050 w ;;
  let '(y, sr) := ysr in
  if len y =? 0 then
    Ok [ ("duration_seconds", 0%float);
         ("tempo_bpm", 0%float);
         ("rms_mean", 0%float);
         ("spectral_centroid_mean", 0%float);
         ("zero_crossing_rate_mean", 0%float);
         ("mfcc1_mean", 0%float) ]
  else
    duration_seconds <- get_duration y sr ;;
    tempo_bpm <- tempo_or_zero y sr ;;
    rms_mean <- feature_rms_mean y ;;
    spectral_centroid_mean <- feature_spectral_centroid_mean y sr ;;
    zero_crossing_rate_mean <- feature_zero_crossing_rate_mean y ;;
    mfcc1_mean <- feature_mfcc1_mean y sr ;;
    Ok [ ("duration_seconds", duration_seconds);
         ("tempo_bpm", tempo_bpm);
         ("rms_mean", rms_mean);
         ("spectral_centroid_mean", spectral_centroid_mean);
         ("zero_crossing_rate_mean", zero_crossing_rate_mean);
         ("mfcc1_mean", mfcc1_mean) ].

(** [y[start : start + window_samples]] and its root-mean-square energy. *)
Definition segment_at (y : list sample) (window_samples start : Z) : list sample :=
  py_slice y start (start + window_samples).

Definition rms_at (y : list sample) (window_samples start : Z) : float :=
  match segment_at y window_samples start with
  | [] => 0%float
  | seg => np_rms seg
  end.

(** One turn of the scan: [(best_start, best_rms)] after looking at [start]. *)
Definition scan_step (y : list sample) (window_samples : Z)
  (best : Z * float) (start : Z) : Z * float :=
  let rms := rms_at y window_samples start in
  if PyFloat.gtb rms (snd best) then (start, rms) else best.

Definition scan (y : list sample) (window_samples : Z) (starts : list Z)
  : Z * float :=
  fold_left (scan_step y window_samples) starts (0, (-1)%float).

(** [int(sr * (window_ms / 1000.0))]. *)
Definition window_samples_of (sr window_ms : Z) : result Z :=
  window <- PyFloat.of_int window_ms ;;
  rate <- PyFloat.of_int sr ;;
  PyFloat.to_int (rate * (window / 1000))%float.

(** [int(sr * 0.05)]. *)
Definition hop_samples_of (sr : Z) : result Z :=
  rate <- PyFloat.of_int sr ;;
  PyFloat.to_int (rate * PyFloat.lit_0_05)%float.

(** [int(1000.0 * best_start / sr)]. *)
Definition ms_of_samples (sr best_start : Z) : result Z :=
  start <- PyFloat.of_int best_start ;;
  rate <- PyFloat.of_int sr ;;
  q <- PyFloat.div (1000 * start)%float rate ;;
  PyFloat.to_int q.

Definition _find_highest_rms_window_ms (path : string) (window_ms sr : Z)
  (w : world) : result Z :=
  y <- librosa_load path sr w ;;
  if len y =? 0 then Ok 0
  else
    window_samples <- window_samples_of sr window_ms ;;
    hop_samples <- hop_samples_of sr ;;
    if (window_samples <=? 0) || (len y <=? window_samples) then Ok 0
    else
      starts <- py_range 0 (len y - window_samples + 1) hop_samples ;;
      let '(best_start, _) := scan y window_samples starts in
      ms_of_samples sr best_start.

(** The [if length_ms < snippet_ms] block: the audio after looping. *)
Definition loop_to_length (audio : list frame) (snippet_ms : Z)
  : result (list frame) :=
  let length_ms := len audio in
  if length_ms <? snippet_ms then
    q <- PyFloat.int_truediv snippet_ms (Z.max 1 length_ms) ;;
    loops <- PyFloat.ceil q ;;
    Ok (audio_times audio loops)
  else Ok audio.

(** [rng.randint(0, max_start) if max_start > 0 else 0]. *)
Definition random_start (g : rng) (length_ms snippet_ms : Z) : result Z :=
  let max_start := Z.max 0 (length_ms - snippet_ms) in
  if 0 <? max_start then fst (PyRandomOps.randint g 0 max_start) else Ok 0.

(** [int(max(0, min(start_ms, max(0, length_ms - snippet_ms))))]. *)
Definition clamp_start (start_ms length_ms snippet_ms : Z) : Z :=
  Z.max 0 (Z.min start_ms (Z.max 0 (length_ms - snippet_ms))).

(** The [if method == ... elif ... else] chain: the value of [start_ms].
    [length_ms] is the length after looping; the energy scan is given the
    path of the source file. *)
Definition select_start (method source_wav : string) (length_ms snippet_ms : Z)
  (g : rng) (w : world) : result Z :=
  if String.eqb method "random" then random_start g length_ms snippet_ms
  else if String.eqb method "highest_rms" then
    start_ms <- _find_highest_rms_window_ms source_wav snippet_ms 22050 w ;;
    Ok (clamp_start start_ms length_ms snippet_ms)
  else random_start g length_ms snippet_ms.

(** [os.path.dirname] on a POSIX path. *)
Fixpoint last_slash (s : string) (i : nat) (acc : option nat) : option nat :=
  match s with
  | EmptyString => acc
  | String c s' =>
      last_slash s' (S i) (if Ascii.eqb c "/"%char then Some i else acc)
  end.

Fixpoint all_slashes (s : string) : bool :=
  match s with
  | EmptyString => true
  | String c s' => Ascii.eqb c "/"%char && all_slashes s'
  end.

Fixpoint rstrip_slashes (s : string) : string :=
  match s with
  | EmptyString => EmptyString
  | String c s' =>
      if all_slashes (String c s') then EmptyString
      else String c (rstrip_slashes s')
  end.

Definition dirname (p : string) : string :=
  match last_slash p 0 None with
  | None => ""
  | Some i =>
      let head := String.substring 0 (S i) p in
      if all_slashes head then head else rstrip_slashes head
  end.


Definition make_snippet (source_wav target_wav : string) (snippet_ms fade_ms : Z)
  (method : string) (seed : option Z) (w : world)
  : result (snippet_out frame) * world :=
  match from_file source_wav w with
  | Raise e => (Raise e, w)
  | Ok audio0 =>
      let g := match seed with Some a => rng_seed a | None => rng_entropy end in
      match
        (audio <- loop_to_length audio0 snippet_ms ;;
         let length_ms := len audio in
         start_ms <- select_start method source_wav length_ms snippet_ms g w ;;
         let snippet := slice audio start_ms (start_ms + snippet_ms) in
         faded <- fade_in fade_ms snippet ;;
         snippet <- fade_out fade_ms faded ;;
         Ok (start_ms, snippet))
      with
      | Raise e => (Raise e, w)
      | Ok (start_ms, snippet) =>
          match ensure_dir (dirname target_wav) w with
          | (Raise e, w1) => (Raise e, w1)
          | (Ok _, w1) =>
              match export_wav target_wav snippet w1 with
              | (Raise e, w2) => (Raise e, w2)
              | (Ok _, w2) =>
                  (Ok {| so_return :=
                           (target_wav, method,
                            (PyFloat.of_Z snippet_ms / 1000)%float);
                         so_start_ms := start_ms;
                         so_snippet := snippet |}, w2)
              end
          end
      end
  end.

End WithPlatform.
End AudioUtils.

(** ** [src/pipeline.py] *)

Module Pipeline.

(** What the pipeline does to the outside that a caller can observe while a
    model is being run. *)
Inductive event : Type :=
| EvReplicateRun (model : string) (input : list (string * string))
| EvWarning (attempt retries : Z) (e : exn)
| EvSleep (seconds : float).

(** What one turn of the retry loop's [try] body comes to. *)
Inductive outcome : Type :=
| Return (urls : list string)
| FallThrough
| Raised (e : exn).

(** [needle in hay] on strings. *)
Fixpoint contains (needle hay : string) : bool :=
  String.prefix needle hay ||
  match hay with
  | EmptyString => false
  | String _ rest => contains needle rest
  end.

Fixpoint dict_get {V : Type} (key : string) (d : list (string * V)) : option V :=
  match d with
  | [] => None
  | (k, v) :: d' => if String.eqb k key then Some v else dict_get key d'
  end.

(** [[x for x in items if isinstance(x, str)]]. *)
Definition strings_of (items : list pyval) : list string :=
  flat_map (fun v => match as_str v with Some s => [s] | None => [] end) items.

(** [for key in keys: if key in out and isinstance(out[key], str): return]. *)
Fixpoint first_str_under (keys : list string) (d : list (string * pyval))
  : option string :=
  match keys with
  | [] => None
  | key :: keys' =>
      match dict_get key d with
      | Some v =>
          match as_str v with
          | Some s => Some s
          | None => first_str_under keys' d
          end
      | None => first_str_under keys' d
      end
  end.

(** [for key in keys: if key in out and isinstance(out[key], list): return]. *)
Fixpoint first_list_under (keys : list string) (d : list (string * pyval))
  : option (list pyval) :=
  match keys with
  | [] => None
  | key :: keys' =>
      match dict_get key d with
      | Some v =>
          match as_list v with
          | Some items => Some items
          | None => first_list_under keys' d
          end
      | None => first_list_under keys' d
      end
  end.

(** The [if isinstance(out, dict)] block: what it returns, [None] when it
    falls through to the next test. *)
Definition under_known_keys (d : list (string * pyval)) : option (list string) :=
  match first_str_under ["audio"; "audio_url"; "output"; "url"] d with
  | Some s => Some [s]
  | None =>
      match first_list_under ["audio"; "output"] d with
      | Some items => Some (strings_of items)
      | None => None
      end
  end.

(** The statements of the [try] body after [out = replicate_mod.run(...)],
    one test after the other. *)
Definition handle_output (out : pyval) : outcome :=
  if is_none out then FallThrough
  else
    match as_str out with
    | Some s => Return [s]
    | None =>
        match as_list out with
        | Some items => Return (strings_of items)
        | None =>
            match
              match as_dict out with
              | Some d => under_known_keys d
              | None => None
              end
            with
            | Some urls => Return urls
            | None =>
                match url_method out with
                | Some (Ok s) => Return [s]
                | Some (Raise e) => Raised e
                | None => FallThrough
                end
            end
        end
    end.

(** The model-specific input and the model reference sent to the service. *)
Definition adapt (model prompt : string) : list (string * string) * string :=
  if contains "lucataco/ace-step" model then
    ([("tags", prompt); ("lyrics", prompt)],
     if negb (contains ":" model)
     then "lucataco/ace-step:280fc4f9ee507577f880a167f639c02622421d8fecf492454320311217b688f1"
     else model)
  else if contains "meta/musicgen" model || contains "musicgen" model then
    ([("prompt", prompt); ("model_version", "stereo-large");
      ("output_format", "mp3"); ("normalization_strategy", "peak")],
     "meta/musicgen:671ac645ce5e552cc63a54a2bbff63fcf798043055d2dac5fc9e36a837eedcfb")
  else ([("prompt", prompt)], model).

Section WithPlatform.
Context {P : Platform} {R : PyRandom}.

Definition no_usable_url : exn :=
  RuntimeError "Model did not return a usable audio URL".

(** The [try] body of one turn: the remote call and what its answer comes
    to.  What the call raises and what [out.url()] raises both meet the
    turn's [except Exception]. *)
Definition try_body (model_with_version : string)
  (input_data : list (string * string)) (w : world) : outcome * world :=
  let '(r, w1) := replicate_run model_with_version input_data w in
  (match r with Ok out => handle_output out | Raise e => Raised e end, w1).

(** [if last_err: raise last_err] and the [raise RuntimeError] after it:
    what is raised once the loop has run out of turns. *)
Definition raised_at_end (last_err : option exn) : exn :=
  match last_err with
  | Some e => if truth e then e else no_usable_url
  | None => no_usable_url
  end.

(** [for attempt in range(attempt, retries + 1)] with [remaining] turns
    left, followed by the two [raise] statements after the loop.  The
    attempt number is converted with [PyFloat.of_Z]: it stays far below
    the range of a float. *)
Fixpoint attempt_loop (remaining : nat) (attempt retries : Z) (backoff : float)
  (model_with_version : string) (input_data : list (string * string))
  (last_err : option exn) (w : world) : result (list string) * world * list event :=
  match remaining with
  | O => (Raise (raised_at_end last_err), w, [])
  | S remaining' =>
      let next := attempt_loop remaining' (attempt + 1) retries backoff
                    model_with_version input_data in
      let ran := EvReplicateRun model_with_version input_data in
      let '(o, w1) := try_body model_with_version input_data w in
      match o with
      | Return urls => (Ok urls, w1, [ran])
      | FallThrough =>
          let '(res, w2, evs) := next last_err w1 in (res, w2, ran :: evs)
      | Raised e =>
          if is_Exception e then
            let warned := EvWarning attempt retries e in
            let seconds := (backoff * PyFloat.of_Z attempt)%float in
            match time_sleep seconds w1 with
            | (Raise e', w2) => (Raise e', w2, [ran; warned])
            | (Ok _, w2) =>
                let '(res, w3, evs) := next (Some e) w2 in
                (res, w3, ran :: warned :: EvSleep seconds :: evs)
            end
          else (Raise e, w1, [ran])
      end
  end.

Definition run_model (model prompt : string) (retries : Z) (backoff : float)
  (w : world) : result (list string) * world * list event :=
  let '(input_data, model_with_version) := adapt model prompt in
  attempt_loop (Z.to_nat retries) 1 retries backoff
    model_with_version input_data None w.

(** *** The orchestrator *)

(** Computations of [main]: they read and change the world, may raise, and
    leave events behind. *)
Definition M (A : Type) : Type := world -> result A * world * list event.

Definition ret {A : Type} (a : A) : M A := fun w => (Ok a, w, []).

Definition raise {A : Type} (e : exn) : M A := fun w => (Raise e, w, []).

Definition mbind {A B : Type} (m : M A) (k : A -> M B) : M B :=
  fun w =>
    match m w with
    | (Ok a, w1, ev1) => let '(r, w2, ev2) := k a w1 in (r, w2, ev1 ++ ev2)
    | (Raise e, w1, ev1) => (Raise e, w1, ev1)
    end.

Notation "x <~ m ;; k" := (mbind m (fun x => k))
  (at level 61, m at next level, right associativity).

(** A call that changes the world and leaves no event. *)
Definition call {A : Type} (f : world -> result A * world) : M A :=
  fun w => let '(r, w1) := f w in (r, w1, []).

(** A call that only reads the world. *)
Definition read {A : Type} (f : world -> result A) : M A :=
  fun w => (f w, w, []).

Record Args : Type := {
  num_tracks : Z;
  seed : Z;
  model : string;
  force : bool;
  snippet_seconds : Z;
  snippet_method : string
}.

(** [os.path.join(a, b)] for a relative [b]. *)
Definition path_join (a b : string) : string := (a ++ "/" ++ b)%string.

Definition audio_dir : string := path_join "outputs" "audio".
Definition snippet_dir : string := path_join "outputs" "snippets".
Definition csv_path : string := path_join "outputs" "tracks.csv".

(** [f"{n:02d}"]. *)
Definition fmt_02d (n : Z) : string :=
  let s := NilZero.string_of_int (Z.to_int n) in
  if (String.length s <? 2)%nat then ("0" ++ s)%string else s.

Definition audio_path_of (idx : Z) : string :=
  path_join audio_dir ("song_" ++ fmt_02d (idx + 1) ++ ".wav")%string.

Definition snippet_path_of (idx : Z) : string :=
  path_join snippet_dir ("song_" ++ fmt_02d (idx + 1) ++ "_snippet.wav")%string.

(** [df.get(column)]: the column's cells, [None] when there is no such
    column.  A cell a row lacks reads as NaN. *)
Definition df_get (df : DataFrame) (column : string) : option (list cell) :=
  if existsb (String.eqb column) (df_columns df)
  then Some (map (fun r => match dict_get column r with
                           | Some c => c
                           | None => CFloat nan
                           end) (df_rows df))
  else None.

(** [cell == s] for a string [s]. *)
Definition cell_is (s : string) (c : cell) : bool :=
  match c with
  | CStr s' => String.eqb s' s
  | CFloat _ => false
  end.

(** [float(cell)]. *)
Definition float_of_cell (c : cell) : result float :=
  match c with
  | CFloat f => Ok f
  | CStr s => float_of_string s
  end.

(** [existing.loc[existing["audio_path"] == audio_path,
    "generation_time_seconds"].iloc[0]], as a float. *)
Definition recorded_gen_time (df : DataFrame) (audio_path : string) : result float :=
  match df_get df "audio_path", df_get df "generation_time_seconds" with
  | None, _ => Raise (KeyError "audio_path")
  | _, None => Raise (KeyError "generation_time_seconds")
  | Some paths, Some times =>
      match filter (fun pt => cell_is audio_path (fst pt)) (combine paths times) with
      | [] => Raise (IndexError "single positional indexer is out-of-bounds")
      | (_, t) :: _ => float_of_cell t
      end
  end.

(** [existing is not None and (existing.get("audio_path") == audio_path).any()]:
    the table to read the recorded time from when the test holds. *)
Definition already_generated (existing : option DataFrame) (audio_path : string)
  : result (option DataFrame) :=
  match existing with
  | None => Ok None
  | Some df =>
      match df_get df "audio_path" with
      | None => Raise (AttributeError "'bool' object has no attribute 'any'")
      | Some paths =>
          Ok (if existsb (cell_is audio_path) paths then Some df else None)
      end
  end.

(** [time.perf_counter()] as a computation. *)
Definition now : M float :=
  call (fun w => let '(t, w1) := perf_counter w in (Ok t, w1)).

(** The [else] branch of the per-track test: generate and download. *)
Definition generate (args : Args) (prompt audio_path : string) : M float :=
  start <~ now ;;
  urls <~ run_model (model args) prompt 3 2%float ;;
  stop <~ now ;;
  let gen_time := (stop - start)%float in
  match urls with
  | [] => raise (RuntimeError "No audio URLs returned by the model")
  | url :: _ =>
      _ <~ call (AudioUtils.download_audio_to_wav url audio_path) ;;
      ret gen_time
  end.

(** [row.update(features)]. *)
Fixpoint dict_set (key : string) (v : cell) (d : row) : row :=
  match d with
  | [] => [(key, v)]
  | (k, v') :: d' =>
      if String.eqb k key then (k, v) :: d' else (k, v') :: dict_set key v d'
  end.

Definition dict_update (d : row) (features : list (string * float)) : row :=
  fold_left (fun acc kv => dict_set (fst kv) (CFloat (snd kv)) acc) features d.

(** The body of [for idx, prompt in enumerate(prompts)]. *)
Definition track (args : Args) (existing : option DataFrame)
  (model_version : option string) (idx : Z) (prompt : string) : M row :=
  song_id <~ call (fun w => let '(u, w1) := uuid4 w in (Ok u, w1)) ;;
  let audio_path := audio_path_of idx in
  hit <~ read (fun _ => already_generated existing audio_path) ;;
  gen_time <~ match hit with
              | Some df => read (fun _ => recorded_gen_time df audio_path)
              | None => generate args prompt audio_path
              end ;;
  features <~ read (AudioUtils.compute_audio_features audio_path) ;;
  snip <~ call (AudioUtils.make_snippet audio_path (snippet_path_of idx)
                  (snippet_seconds args * 1000) 500 (snippet_method args)
                  (Some (seed args + idx))) ;;
  let '(spath, smethod, slen) := AudioUtils.so_return snip in
  ret (dict_update
         [ ("song_id", CStr song_id);
           ("prompt", CStr prompt);
           ("model", CStr (model args));
           ("model_version", CStr (match model_version with
                                   | Some v => v
                                   | None => ""
                                   end));
           ("audio_path", CStr audio_path);
           ("generation_time_seconds", CFloat (PyFloat.round gen_time 3));
           ("snippet_path", CStr spath);
           ("snippet_method", CStr smethod);
           ("snippet_length", CFloat slen) ]
         features).

(** The [for] loop: the rows of the tracks from index [idx] on. *)
Fixpoint tracks (args : Args) (existing : option DataFrame)
  (model_version : option string) (idx : Z) (prompts : list string) : M (list row) :=
  match prompts with
  | [] => ret []
  | prompt :: rest =>
      r <~ track args existing model_version idx prompt ;;
      rs <~ tracks args existing model_version (idx + 1) rest ;;
      ret (r :: rs)
  end.

(** [existing]: the ledger loaded at start, if any.  An exception of
    [read_csv] leaves it [None]. *)
Definition load_existing (args : Args) (w : world) : result (option DataFrame) :=
  if path_exists csv_path w && negb (force args) then
    match read_csv csv_path w with
    | Ok df => Ok (Some df)
    | Raise e => if is_Exception e then Ok None else Raise e
    end
  else Ok None.

(** [model_version]: the provenance string, if the service gives one.  An
    exception of [models.get] leaves it [None]. *)
Definition capture_model_version (args : Args) : M (option string) :=
  fun w =>
    match replicate_models_get (model args) w with
    | (Ok version, w1) => (Ok version, w1, [])
    | (Raise e, w1) =>
        if is_Exception e then (Ok None, w1, []) else (Raise e, w1, [])
    end.

(** [main()] once the arguments are parsed; [g] is the state of the global
    random generator. *)
Definition main (args : Args) (g : rng) : M unit :=
  fun w =>
    match getenv "REPLICATE_API_TOKEN" w with
    | None | Some "" =>
        (Raise (RuntimeError
           "REPLICATE_API_TOKEN not set. Create .env or export the variable."),
         w, [])
    | Some _ =>
        (_ <~ call (AudioUtils.ensure_dir audio_dir) ;;
         _ <~ call (AudioUtils.ensure_dir snippet_dir) ;;
         prompts <~ read (fun _ =>
                      fst (Prompts.sample_prompts (num_tracks args) (seed args) g)) ;;
         existing <~ read (load_existing args) ;;
         model_version <~ capture_model_version args ;;
         rows <~ tracks args existing model_version 0 prompts ;;
         _ <~ call (AudioUtils.ensure_dir (AudioUtils.dirname csv_path)) ;;
         call (to_csv csv_path rows)) w
    end.

End WithPlatform.
End Pipeline.

(** ** A reference generator

    A linear congruential generator with selection by removal: one
    inhabitant of [PyRandom], used to run the model on concrete inputs. *)

Module Lcg.

Definition next (g : Z) : Z := (g * 1103515245 + 12345) mod 2147483648.

Definition below (g n : Z) : Z * Z := (next g mod n, next g).

Definition drop_at {A : Type} (j : nat) (l : list A) : list A :=
  firstn j l ++ skipn (S j) l.

Fixpoint draw (k : nat) (pool : list nat) (g : Z) : list nat * Z :=
  match k with
  | O => ([], g)
  | S k' =>
      let '(j, g1) := below g (Z.of_nat (List.length pool)) in
      let '(xs, g2) := draw k' (drop_at (Z.to_nat j) pool) g1 in
      (nth (Z.to_nat j) pool O :: xs, g2)
  end.

Definition sample_positions (g : Z) (n k : nat) : list nat * Z :=
  draw k (seq 0 n) g.

End Lcg.

(** ** A reference platform

    A small world to run the model in: files are given by what the two
    decoders make of them, the remote service answers from a script, and
    the numeric collaborators are computed in binary64. *)

Module Demo.

Record file : Type := {
  f_frames : list Z;
  f_pcm : list float
}.

Record state : Type := {
  files : list (string * file);
  script : list (result pyval);
  clock : float;
  serial : Z;
  ledger : option DataFrame;
  token : option string
}.

Definition lookup_file (path : string) (w : state) : result file :=
  match Pipeline.dict_get path (files w) with
  | Some f => Ok f
  | None => Raise (Exn "FileNotFoundError" path)
  end.

Definition is_finite (x : float) : bool := PrimFloat.ltb (PrimFloat.abs x) infinity.

Definition all_finite (y : list float) : bool := forallb is_finite y.

Definition sum_squares (seg : list float) : float :=
  fold_left (fun acc x => (acc + x * x)%float) seg 0%float.

Definition rms (seg : list float) : float :=
  PrimFloat.sqrt (sum_squares seg / PyFloat.of_Z (Z.of_nat (List.length seg)))%float.

(** What librosa's spectral analyses do with a buffer that is not finite
    everywhere. *)
Definition spectral (y : list float) (v : float) : result float :=
  if all_finite y then Ok v
  else Raise (Exn "ParameterError" "Audio buffer is not finite everywhere").

(** A fade in this world leaves the frames as they are; a duration that is
    not positive is refused. *)
Definition fade (duration : Z) (frames : list Z) : result (list Z) :=
  if duration <? 0
  then Raise (Exn "InvalidDuration" "duration must be a positive integer")
  else if duration =? 0
  then Raise (TypeError "unsupported operand type(s) for -: 'NoneType' and 'int'")
  else Ok frames.

Definition write_file (path : string) (frames : list Z) (w : state) : state :=
  {| files := (path, {| f_frames := frames; f_pcm := map PyFloat.of_Z frames |})
                :: files w;
     script := script w; clock := clock w; serial := serial w;
     ledger := ledger w; token := token w |}.

Definition answer (w : state) : result pyval * state :=
  match script w with
  | [] => (Raise (Exn "ReplicateError" "no response"), w)
  | r :: rest =>
      (r, {| files := files w; script := rest; clock := clock w;
             serial := serial w; ledger := ledger w; token := token w |})
  end.

Definition fresh_id (w : state) : string * state :=
  (("id-" ++ NilZero.string_of_int (Z.to_int (serial w)))%string,
   {| files := files w; script := script w; clock := clock w;
      serial := serial w + 1; ledger := ledger w; token := token w |}).

Definition advance (seconds : float) (w : state) : state :=
  {| files := files w; script := script w; clock := (clock w + seconds)%float;
     serial := serial w; ledger := ledger w; token := token w |}.

Definition keys_of (rows : list row) : list string :=
  match rows with
  | [] => []
  | r :: _ => map fst r
  end.

Definition save_ledger (rows : list row) (w : state) : state :=
  {| files := files w; script := script w; clock := clock w; serial := serial w;
     ledger := Some {| df_columns := keys_of rows; df_rows := rows |};
     token := token w |}.

Definition platform : Platform := {|
  world := state;
  sample := float;
  frame := Z;
  payload := list Z;
  librosa_load := fun path _ w => f <- lookup_file path w ;; Ok (f_pcm f);
  np_rms := rms;
  get_duration := fun y sr =>
    PyFloat.int_truediv (Z.of_nat (List.length y)) sr;
  beat_track_tempo := fun y _ =>
    if (List.length y <? 4)%nat
    then Raise (Exn "ParameterError" "buffer too short to track beats")
    else spectral y 120%float;
  feature_rms_mean := fun y => Ok (rms y);
  feature_spectral_centroid_mean := fun y _ => spectral y 1000%float;
  feature_zero_crossing_rate_mean := fun y => Ok 0%float;
  feature_mfcc1_mean := fun y _ => spectral y (-100)%float;
  from_file := fun path w => f <- lookup_file path w ;; Ok (f_frames f);
  from_bytes := fun content => Ok content;
  audio_times := fun audio loops => List.concat (repeat audio (Z.to_nat loops));
  fade_in := fade;
  fade_out := fade;
  export_wav := fun path frames w => (Ok tt, write_file path frames w);
  makedirs := fun _ w => (Ok tt, w);
  path_exists := fun path w =>
    if String.eqb path "outputs/tracks.csv"
    then match ledger w with Some _ => true | None => false end
    else match Pipeline.dict_get path (files w) with Some _ => true | None => false end;
  requests_get := fun _ w => (Ok [0; 0; 0], w);
  replicate_run := fun _ _ w => answer w;
  replicate_models_get := fun _ w => (Ok None, w);
  getenv := fun name w =>
    if String.eqb name "REPLICATE_API_TOKEN" then token w else None;
  uuid4 := fresh_id;
  perf_counter := fun w => (clock w, w);
  time_sleep := fun seconds w =>
    if PyFloat.nonneg seconds then (Ok tt, advance seconds w)
    else (Raise (ValueError "sleep length must be non-negative"), w);
  read_csv := fun path w =>
    match ledger w with
    | Some df => Ok df
    | None => Raise (Exn "FileNotFoundError" path)
    end;
  to_csv := fun _ rows w => (Ok tt, save_ledger rows w);
  float_of_string := fun s => Raise (ValueError s)
|}.

(** A world with the given script and nothing else. *)
Definition scripted (answers : list (result pyval)) : state :=
  {| files := []; script := answers; clock := 0%float; serial := 1;
     ledger := None; token := Some "r8_token" |}.

(** A world with one audio file and nothing else. *)
Definition with_file (path : string) (frames : list Z) (pcm : list float) : state :=
  {| files := [(path, {| f_frames := frames; f_pcm := pcm |})];
     script := []; clock := 0%float; serial := 1;
     ledger := None; token := Some "r8_token" |}.

(** [n] milliseconds of audio, each frame labelled by its position. *)
Definition frames_of (n : nat) : list Z := map Z.of_nat (seq 0 n).

(** 5000 samples (227 ms): quiet, then loud from sample 2000 on. *)
Definition loud_tail_pcm : list float :=
  repeat 0.125%float 2000 ++ repeat 0.75%float 3000.

(** 3307 samples (150 ms): silent for 1102 samples, then loud. *)
Definition short_source_pcm : list float :=
  repeat 0%float 1102 ++ repeat 0.5%float 2205.

Definition song_01 : string := "outputs/audio/song_01.wav".

End Demo.

(** ** The vocabulary of the properties

    What the statements below are phrased in: readings of a trace, the runs
    a statement is about, the spec's own wording of a mechanism where it is
    compared with the code's, and the inputs the model is run on. *)

Module PromptsSpec.

(** No entry of [l] occurs twice. *)
Fixpoint distinctb (l : list string) : bool :=
  match l with
  | [] => true
  | x :: l' => negb (existsb (String.eqb x) l') && distinctb l'
  end.

End PromptsSpec.

Module RunModelSpec.
Import Pipeline.

(** The lengths slept, in order. *)
Definition sleeps (evs : list event) : list float :=
  flat_map (fun ev => match ev with EvSleep s => [s] | _ => [] end) evs.

Definition is_run (ev : event) : bool :=
  match ev with EvReplicateRun _ _ => true | _ => false end.

(** The number of calls made to the remote service. *)
Definition runs (evs : list event) : nat := List.length (filter is_run evs).

(** How the attempts of a run that has not returned ended, one entry per
    attempt: [Some e] for an exception [e], [None] for an attempt that ended
    without locator and without exception.

    The trace of such attempts, numbered from [attempt] on: each attempt is
    a call to the service; one that ended in an exception is followed at
    once by the warning and by a sleep of [backoff * attempt], one that
    ended without exception is followed by nothing. *)
Fixpoint failure_trace (backoff : float) (mv : string)
  (input : list (string * string)) (attempt retries : Z)
  (os : list (option exn)) : list event :=
  match os with
  | [] => []
  | Some e :: os' =>
      EvReplicateRun mv input :: EvWarning attempt retries e ::
      EvSleep (backoff * PyFloat.of_Z attempt)%float ::
      failure_trace backoff mv input (attempt + 1) retries os'
  | None :: os' =>
      EvReplicateRun mv input ::
      failure_trace backoff mv input (attempt + 1) retries os'
  end.

(** The sleeps of such attempts: [backoff * attempt] for each attempt that
    ended in an exception, none for the others. *)
Fixpoint sleeps_after (backoff : float) (attempt : Z) (os : list (option exn))
  : list float :=
  match os with
  | [] => []
  | Some _ :: os' =>
      (backoff * PyFloat.of_Z attempt)%float :: sleeps_after backoff (attempt + 1) os'
  | None :: os' => sleeps_after backoff (attempt + 1) os'
  end.

(** The exception remembered after attempts that ended as [os] tells, when
    [last_err] was remembered before them: that of the last attempt that
    ended in one. *)
Definition last_caught (last_err : option exn) (os : list (option exn))
  : option exn :=
  fold_left (fun acc o => match o with Some e => Some e | None => acc end)
            os last_err.

(** [[a; a + 1; ...]], [n] numbers. *)
Fixpoint attempts_from (a : Z) (n : nat) : list Z :=
  match n with
  | O => []
  | S n' => a :: attempts_from (a + 1) n'
  end.

(** The spec's retry policy, in its words: a sleep of [backoff * attempt]
    after each of the first [failed] attempts, except after attempt
    [retries]. *)
Definition promised_sleeps (retries : Z) (backoff : float) (failed : nat)
  : list float :=
  map (fun a => (backoff * PyFloat.of_Z a)%float)
      (filter (fun a => a <? retries) (attempts_from 1 failed)).










Section WithPlatform.
Context {P : Platform}.

(** The run in which the attempts from [attempt] on fail as [os] tells, one
    after the other, taking the world from [w] to [w']: each exception is
    one that [except Exception] catches, and the sleep after it is one the
    clock accepts. *)
Fixpoint attempts_fail (backoff : float) (mv : string)
  (input : list (string * string)) (attempt : Z) (w : world)
  (os : list (option exn)) (w' : world) : Prop :=
  match os with
  | [] => w' = w
  | None :: os' =>
      exists w1,
        try_body mv input w = (FallThrough, w1) /\
        attempts_fail backoff mv input (attempt + 1) w1 os' w'
  | Some e :: os' =>
      exists w1 w2,
        try_body mv input w = (Raised e, w1) /\
        is_Exception e = true /\
        time_sleep (backoff * PyFloat.of_Z attempt)%float w1 = (Ok tt, w2) /\
        attempts_fail backoff mv input (attempt + 1) w2 os' w'
  end.

End WithPlatform.

(** Two failures of the remote service, an exception that is false, and an
    answer that is several things at once: a string with a [url] method. *)
Definition timeout_error : exn := Exn "ReplicateError" "timed out".
Definition busy_error : exn := Exn "ReplicateError" "server busy".

Definition quiet_error : exn :=
  {| exn_class := "QuietError"; exn_msg := "";
     is_Exception := true; truth := false |}.


End RunModelSpec.

Module AudioSpec.
Import AudioUtils.

Section WithPlatform.
Context {P : Platform}.

(** The start of the [i]-th window of the scan. *)
Definition nth_start (hop : Z) (i : nat) : Z := 0 + Z.of_nat i * hop.

(** The scan after its first [n] windows. *)
Definition scan_prefix (y : list sample) (ws hop : Z) (n : nat) : Z * float :=
  scan y ws (map (nth_start hop) (seq 0 n)).








(** The extractor in the spec's words: every descriptor on its own, one
    that fails reads [0.0]. *)
Definition or_zero (r : result float) : float :=
  match r with Ok v => v | Raise _ => 0%float end.

Definition isolated_features (y : list sample) (sr : Z) : list (string * float) :=
  [ ("duration_seconds", or_zero (get_duration y sr));
    ("tempo_bpm", or_zero (beat_track_tempo y sr));
    ("rms_mean", or_zero (feature_rms_mean y));
    ("spectral_centroid_mean", or_zero (feature_spectral_centroid_mean y sr));
    ("zero_crossing_rate_mean", or_zero (feature_zero_crossing_rate_mean y));
    ("mfcc1_mean", or_zero (feature_mfcc1_mean y sr)) ].

End WithPlatform.

(** A decoded buffer with a NaN sample. *)
Definition not_finite_pcm : list float := [0.5%float; nan; 0.25%float].

End AudioSpec.

Module OrchestratorSpec.
Import Pipeline.

(** A ledger left by an earlier run: one row, for [song_01.wav], generated
    in 12.5 seconds and then measured at an energy of 0.875. *)
Definition earlier_ledger : DataFrame := {|
  df_columns := ["song_id"; "prompt"; "audio_path"; "generation_time_seconds";
                 "rms_mean"];
  df_rows := [ [ ("song_id", CStr "id-1");
                 ("prompt", CStr "Melancholic acoustic guitar ballad");
                 ("audio_path", CStr "outputs/audio/song_01.wav");
                 ("generation_time_seconds", CFloat 12.5%float);
                 ("rms_mean", CFloat 0.875%float) ] ]
|}.

(** The world of the re-run: the ledger and the audio file are on disk, the
    remote service is not going to answer. *)
Definition rerun_world : Demo.state := {|
  Demo.files := [ (Demo.song_01,
                   {| Demo.f_frames := Demo.frames_of 40;
                      Demo.f_pcm := repeat 0.25%float 882 |}) ];
  Demo.script := [];
  Demo.clock := 100%float;
  Demo.serial := 7;
  Demo.ledger := Some earlier_ledger;
  Demo.token := Some "r8_token"
|}.

Definition rerun_args : Args := {|
  num_tracks := 1;
  seed := 42;
  model := "lucataco/ace-step";
  force := false;
  snippet_seconds := 1;
  snippet_method := "random"
|}.

(** The row a ledger holds for an audio path: the first one whose
    ["audio_path"] is that path. *)
Definition has_audio_path (path : string) (r : row) : bool :=
  match dict_get "audio_path" r with
  | Some (CStr s) => String.eqb s path
  | _ => false
  end.

Definition ledger_row (df : DataFrame) (path : string) : option row :=
  find (has_audio_path path) (df_rows df).

(** Two times: 12.34567, which has more than three decimals, and 12.346,
    which is what it rounds to. *)
Definition time_12_34567 : float := 0x1.8b0fba8826aa9p+3%float.
Definition time_12_346 : float := 0x1.8b126e978d4fep+3%float.

(** A ledger in which [song_01.wav] is neither the first row nor recorded
    once only: its first row says 12.34567 seconds, and a later row for the
    same path says 99. *)
Definition longer_ledger : DataFrame := {|
  df_columns := ["song_id"; "audio_path"; "generation_time_seconds"];
  df_rows := [ [ ("song_id", CStr "id-2");
                 ("audio_path", CStr "outputs/audio/song_02.wav");
                 ("generation_time_seconds", CFloat 3.25%float) ];
               [ ("song_id", CStr "id-1");
                 ("audio_path", CStr "outputs/audio/song_01.wav");
                 ("generation_time_seconds", CFloat time_12_34567) ];
               [ ("song_id", CStr "id-3");
                 ("audio_path", CStr "outputs/audio/song_01.wav");
                 ("generation_time_seconds", CFloat 99%float) ] ]
|}.

(** A ledger of one row whose recorded time has more than three
    decimals. *)
Definition unrounded_ledger : DataFrame := {|
  df_columns := ["song_id"; "audio_path"; "generation_time_seconds"];
  df_rows := [ [ ("song_id", CStr "id-1");
                 ("audio_path", CStr "outputs/audio/song_01.wav");
                 ("generation_time_seconds", CFloat time_12_34567) ] ]
|}.

(** The world of the re-run with another ledger on disk. *)
Definition rerun_with (df : DataFrame) : Demo.state := {|
  Demo.files := Demo.files rerun_world;
  Demo.script := [];
  Demo.clock := 100%float;
  Demo.serial := 7;
  Demo.ledger := Some df;
  Demo.token := Some "r8_token"
|}.

End OrchestratorSpec.

(** ** Further vocabulary: names, failing runs, well-formed rows *)

Module NamesSpec.

(** [needle] occurs in [hay]. *)
Definition occurs_in (needle hay : string) : Prop :=
  exists pre post, hay = (pre ++ needle ++ post)%string.

(** [int(s)] on a decimal string. *)
Definition read_int (s : string) : option Z :=
  option_map Z.of_int (NilZero.int_of_string s).

End NamesSpec.

Module RetrySpec.
Import Pipeline.

(** What the events of one [run_model] call may be: calls with the adapted
    model and input, warnings numbered by an attempt of the call, sleeps of
    [backoff] times such an attempt. *)
Definition event_of_run (backoff : float) (mv : string)
  (input : list (string * string)) (retries : Z) (ev : event) : Prop :=
  match ev with
  | EvReplicateRun m i => m = mv /\ i = input
  | EvWarning a r _ => 1 <= a <= retries /\ r = retries
  | EvSleep s =>
      exists a, 1 <= a <= retries /\ s = (backoff * PyFloat.of_Z a)%float
  end.

End RetrySpec.

Module FeatureSpec.

(** The fields of a feature vector, in order. *)
Definition feature_keys : list string :=
  [ "duration_seconds"; "tempo_bpm"; "rms_mean"; "spectral_centroid_mean";
    "zero_crossing_rate_mean"; "mfcc1_mean" ].

(** 5000 samples of silence. *)
Definition silence_pcm : list float := repeat 0%float 5000.

End FeatureSpec.

Module LedgerSpec.
Import Pipeline.

(** A ledger row that belongs to track [idx] of a run with [args] and
    [prompt]: fifteen fields, the bookkeeping ones as the run dictates. *)
Definition row_of_track (args : Args) (idx : Z) (prompt : string) (r : row) : Prop :=
  map fst r =
    [ "song_id"; "prompt"; "model"; "model_version"; "audio_path";
      "generation_time_seconds"; "snippet_path"; "snippet_method";
      "snippet_length"; "duration_seconds"; "tempo_bpm"; "rms_mean";
      "spectral_centroid_mean"; "zero_crossing_rate_mean"; "mfcc1_mean" ] /\
  dict_get "prompt" r = Some (CStr prompt) /\
  dict_get "model" r = Some (CStr (model args)) /\
  dict_get "audio_path" r = Some (CStr (audio_path_of idx)) /\
  dict_get "snippet_path" r = Some (CStr (snippet_path_of idx)) /\
  dict_get "snippet_method" r = Some (CStr (snippet_method args)) /\
  dict_get "snippet_length" r =
    Some (CFloat (PyFloat.of_Z (snippet_seconds args * 1000) / 1000)%float).

(** The error of a run without credentials. *)
Definition no_token : exn :=
  RuntimeError "REPLICATE_API_TOKEN not set. Create .env or export the variable.".

(** Two damaged ledgers: one has lost its ["audio_path"] column, the other
    its ["generation_time_seconds"] column. *)
Definition ledger_without_paths : DataFrame := {|
  df_columns := ["song_id"; "prompt"];
  df_rows := [ [ ("song_id", CStr "id-1");
                 ("prompt", CStr "Melancholic acoustic guitar ballad") ] ]
|}.

Definition ledger_without_times : DataFrame := {|
  df_columns := ["song_id"; "audio_path"];
  df_rows := [ [ ("song_id", CStr "id-1");
                 ("audio_path", CStr "outputs/audio/song_01.wav") ] ]
|}.

(** A world without credentials, and one where the service answers with
    two locators. *)
Definition no_token_world : Demo.state := {|
  Demo.files := []; Demo.script := []; Demo.clock := 0%float; Demo.serial := 1;
  Demo.ledger := None; Demo.token := None
|}.

Definition two_locators_world : Demo.state :=
  Demo.scripted [ Ok (PList [ PStr "https://cdn.example/a.wav";
                              PStr "https://cdn.example/b.wav" ]) ].

(** The arguments of a run of [n] tracks, the rest as by default. *)
Definition args_for (n : Z) : Args := {|
  num_tracks := n;
  seed := 42;
  model := "lucataco/ace-step";
  force := false;
  snippet_seconds := 1;
  snippet_method := "random"
|}.

(** The same run with [--force]. *)
Definition forced_args : Args := {|
  num_tracks := 1;
  seed := 42;
  model := "lucataco/ace-step";
  force := true;
  snippet_seconds := 1;
  snippet_method := "random"
|}.

End LedgerSpec.

(** ** Order facts on binary64 values *)

Ltac split_cmp :=
  repeat match goal with
  | H : context [Pos.compare_cont Eq ?a ?b] |- _ =>
      change (Pos.compare_cont Eq a b) with (Pos.compare a b) in H;
      destruct (Pos.compare_spec a b)
  | |- context [Pos.compare_cont Eq ?a ?b] =>
      change (Pos.compare_cont Eq a b) with (Pos.compare a b);
      destruct (Pos.compare_spec a b)
  | H : context [Z.compare ?a ?b] |- _ => destruct (Z.compare_spec a b)
  | |- context [Z.compare ?a ?b] => destruct (Z.compare_spec a b)
  end.

Ltac sf_cases :=
  simpl; try discriminate; try reflexivity; intros;
  split_cmp; subst; try discriminate; try reflexivity; try lia.

Lemma SFltb_leb_trans (a b c : spec_float) :
  SFltb a b = true -> SFleb b c = true -> SFltb a c = true.
Proof.
  unfold SFltb, SFleb.
  destruct a as [[]|[]| |[] ma ea], b as [[]|[]| |[] mb eb],
           c as [[]|[]| |[] mc ec]; sf_cases.
Qed.






Module FloatOrder.

Lemma ltb_leb_trans (a b c : float) :
  PrimFloat.ltb a b = true -> PrimFloat.leb b c = true -> PrimFloat.ltb a c = true.
Proof. rewrite !ltb_spec, leb_spec. apply SFltb_leb_trans. Qed.





Lemma nonneg_above_minus_one (a : float) :
  PyFloat.nonneg a = true -> PyFloat.gtb a (-1)%float = true.
Proof.
  intros H. unfold PyFloat.gtb.
  apply (ltb_leb_trans _ 0%float); [reflexivity | exact H].
Qed.

End FloatOrder.

(** ** The reference generator obeys the library's contract *)

Module LcgFacts.
Import Lcg.

Lemma below_range (g n : Z) : 0 < n -> 0 <= fst (below g n) < n.
Proof. intros Hn. unfold below. simpl. apply Z.mod_pos_bound. exact Hn. Qed.

Lemma split_at {A : Type} (d : A) (j : nat) (l : list A) :
  (j < List.length l)%nat ->
  l = firstn j l ++ nth j l d :: skipn (S j) l.
Proof.
  revert l. induction j as [|j IH]; intros [|x l] Hj; simpl in *; try lia.
  - reflexivity.
  - f_equal. apply IH. lia.
Qed.

Lemma drop_at_length {A : Type} (j : nat) (l : list A) :
  (j < List.length l)%nat -> S (List.length (drop_at j l)) = List.length l.
Proof.
  intros Hj. unfold drop_at.
  rewrite length_app, length_firstn, length_skipn. lia.
Qed.

Lemma draw_spec (k : nat) :
  forall pool g, NoDup pool -> (k <= List.length pool)%nat ->
    List.length (fst (draw k pool g)) = k /\
    NoDup (fst (draw k pool g)) /\
    incl (fst (draw k pool g)) pool.
Proof.
  induction k as [|k IH]; intros pool g Hnd Hk; simpl.
  - repeat split; [constructor | intros x []].
  - set (j := Z.to_nat (next g mod Z.of_nat (List.length pool))).
    assert (Hj : (j < List.length pool)%nat).
    { subst j. pose proof (Z.mod_pos_bound (next g) (Z.of_nat (List.length pool))).
      lia. }
    pose proof (split_at O j pool Hj) as Hsplit.
    assert (Hnd' : NoDup (firstn j pool ++ nth j pool O :: skipn (S j) pool))
      by (rewrite <- Hsplit; exact Hnd).
    pose proof (NoDup_remove_1 _ _ _ Hnd') as Hrest.
    pose proof (NoDup_remove_2 _ _ _ Hnd') as Hfresh.
    pose proof (drop_at_length j pool Hj) as Hlen.
    specialize (IH (drop_at j pool) (next g) Hrest ltac:(lia)).
    destruct (draw k (drop_at j pool) (next g)) as [xs g2] eqn:Hd.
    simpl in *. destruct IH as (IHlen & IHnd & IHin).
    repeat split.
    + lia.
    + constructor; [intros Hx; apply Hfresh, IHin, Hx | exact IHnd].
    + intros x [<- | Hx].
      * apply nth_In, Hj.
      * apply IHin in Hx. unfold drop_at in Hx. rewrite Hsplit.
        apply in_app_or in Hx. apply in_or_app.
        destruct Hx; [left | right; right]; assumption.
Qed.

Lemma sample_positions_spec (g : Z) (n k : nat) :
  (k <= n)%nat ->
  List.length (fst (sample_positions g n k)) = k /\
  NoDup (fst (sample_positions g n k)) /\
  forall i, In i (fst (sample_positions g n k)) -> (i < n)%nat.
Proof.
  intros Hk. unfold sample_positions.
  destruct (draw_spec k (seq 0 n) g (seq_NoDup n 0)) as (Hl & Hn & Hi).
  - rewrite length_seq. exact Hk.
  - repeat split; try assumption.
    intros i Hin. apply Hi, in_seq in Hin. lia.
Qed.

End LcgFacts.

(** The reference generator as an inhabitant of [PyRandom]; a seed is the
    generator's first state. *)
Definition lcg_random : PyRandom := {|
  rng := Z;
  rng_seed := fun a => a;
  rng_entropy := 20260101;
  rng_below := Lcg.below;
  rng_sample := Lcg.sample_positions;
  rng_below_range := LcgFacts.below_range;
  rng_sample_length := fun g n k H => proj1 (LcgFacts.sample_positions_spec g n k H);
  rng_sample_NoDup := fun g n k H =>
    proj1 (proj2 (LcgFacts.sample_positions_spec g n k H));
  rng_sample_range := fun g n k i H =>
    proj2 (proj2 (LcgFacts.sample_positions_spec g n k H)) i
|}.

(** ** [sample_prompts] *)

Module PromptsFacts.
Import Prompts PromptsSpec.

Lemma pool_length : List.length PROMPT_POOL = 30%nat.
Proof. reflexivity. Qed.

Lemma distinctb_NoDup (l : list string) : distinctb l = true -> NoDup l.
Proof.
  induction l as [|x l IH]; simpl; intros H; constructor.
  - apply andb_prop in H. destruct H as [H _].
    intros Hin. apply negb_true_iff in H.
    assert (existsb (String.eqb x) l = true); [|congruence].
    apply existsb_exists. exists x. split; [exact Hin | apply String.eqb_refl].
  - apply IH. apply andb_prop in H. apply H.
Qed.

Lemma pool_NoDup : NoDup PROMPT_POOL.
Proof. apply distinctb_NoDup. vm_compute. reflexivity. Qed.

Section WithRandom.
Context {R : PyRandom}.

Lemma nth_positions_NoDup (pop : list string) (idx : list nat) :
  NoDup pop -> NoDup idx -> (forall i, In i idx -> (i < List.length pop)%nat) ->
  NoDup (map (fun i => nth i pop "") idx).
Proof.
  intros Hpop. induction idx as [|i idx IH]; simpl; intros Hnd Hr; constructor.
  - inversion Hnd as [|? ? Hni _]; subst. intros Hin.
    apply in_map_iff in Hin. destruct Hin as (j & Hj & Hjin).
    assert (j = i); [|subst; contradiction].
    rewrite (NoDup_nth pop "") in Hpop. apply Hpop; auto.
  - inversion Hnd; subst. apply IH; auto.
Qed.

Lemma sample_in_range (g : rng) (pop : list string) (k : Z) :
  NoDup pop -> 0 <= k <= Z.of_nat (List.length pop) ->
  exists ps, fst (PyRandomOps.sample g pop k) = Ok ps /\
             Z.of_nat (List.length ps) = k /\ NoDup ps /\ incl ps pop.
Proof.
  intros Hpop Hk. unfold PyRandomOps.sample.
  destruct (k <? 0) eqn:E1; [apply Z.ltb_lt in E1; lia|].
  destruct (Z.of_nat (List.length pop) <? k) eqn:E2; [apply Z.ltb_lt in E2; lia|].
  simpl.
  assert (Hkn : (Z.to_nat k <= List.length pop)%nat) by lia.
  pose proof (rng_sample_length g _ _ Hkn) as Hl.
  pose proof (rng_sample_NoDup g _ _ Hkn) as Hn.
  pose proof (fun i => rng_sample_range g _ _ i Hkn) as Hr.
  destruct (rng_sample g (List.length pop) (Z.to_nat k)) as [idx g'].
  simpl in *. eexists. split; [reflexivity|]. repeat split.
  - rewrite length_map, Hl. lia.
  - apply nth_positions_NoDup; assumption.
  - intros p Hp. apply in_map_iff in Hp. destruct Hp as (i & <- & Hi).
    apply nth_In, Hr, Hi.
Qed.

(** C7. For [0 <= n <= 30], [sample_prompts n seed] returns [n] pairwise
    distinct prompts, all of them from [PROMPT_POOL]; and for every [n] and
    [seed] the outcome does not depend on the state the global generator was
    in, so two calls with the same arguments return the same sequence. *)
Theorem sample_prompts_distinct_and_deterministic (n seed : Z) :
  (0 <= n <= 30 ->
   forall g, exists ps,
     fst (sample_prompts n seed g) = Ok ps /\
     Z.of_nat (List.length ps) = n /\ NoDup ps /\ incl ps PROMPT_POOL) /\
  (forall g1 g2, sample_prompts n seed g1 = sample_prompts n seed g2).
Proof.
  split.
  - intros Hn g. unfold sample_prompts. rewrite pool_length.
    destruct (n <=? Z.of_nat 30) eqn:E; [|apply Z.leb_gt in E; lia].
    apply sample_in_range; [apply pool_NoDup | rewrite pool_length; lia].
  - intros g1 g2. reflexivity.
Qed.

(** C8, as amended. [sample_prompts 0 seed] returns the empty sequence, and
    [sample_prompts n seed] for a negative [n] raises the [ValueError] of
    [random.sample]. *)
Theorem sample_prompts_nonpositive (n seed : Z) (g : rng) :
  (n = 0 -> fst (sample_prompts n seed g) = Ok []) /\
  (n < 0 -> fst (sample_prompts n seed g) =
            Raise (ValueError "Sample larger than population or is negative")).
Proof.
  split.
  - intros ->. unfold sample_prompts. rewrite pool_length.
    change (0 <=? Z.of_nat 30) with true. cbv iota.
    destruct (sample_in_range (rng_seed seed) PROMPT_POOL 0 pool_NoDup)
      as (ps & Hps & Hlen & _); [rewrite pool_length; lia|].
    rewrite Hps. destruct ps; [reflexivity | simpl in Hlen; lia].
  - intros Hn. unfold sample_prompts, PyRandomOps.sample. rewrite pool_length.
    destruct (n <=? Z.of_nat 30) eqn:E; [|apply Z.leb_gt in E; lia].
    destruct (n <? 0) eqn:E1; [reflexivity | apply Z.ltb_ge in E1; lia].
Qed.

End WithRandom.

Lemma sample_prompts_distinct_and_deterministic_witness :
  exists ps,
    fst (sample_prompts (R := lcg_random) 3 42 0) = Ok ps /\
    Z.of_nat (List.length ps) = 3 /\ NoDup ps /\ incl ps PROMPT_POOL.
Proof.
  apply (proj1 (sample_prompts_distinct_and_deterministic (R := lcg_random) 3 42)).
  lia.
Defined.

Lemma sample_prompts_nonpositive_witness :
  fst (sample_prompts (R := lcg_random) 0 42 7) = Ok [].
Proof.
  apply (proj1 (sample_prompts_nonpositive (R := lcg_random) 0 42 7)).
  reflexivity.
Defined.

(** C8 as stated fails: a negative count raises instead of returning the
    empty sequence. *)
Lemma sample_prompts_negative_raises :
  ~ (forall n seed : Z, n <= 0 ->
       fst (sample_prompts (R := lcg_random) n seed 0) = Ok []).
Proof.
  intros H. specialize (H (-1) 42 ltac:(lia)). vm_compute in H. discriminate H.
Qed.

End PromptsFacts.

(** ** [run_model]: retries, sleeps and output shapes *)

Module RunModelFacts.
Import Pipeline RunModelSpec.








Lemma last_nonempty {A : Type} (x d d' : A) (l : list A) :
  last (x :: l) d = last (x :: l) d'.
Proof.
  revert x. induction l as [|y l IH]; intros x; [reflexivity|].
  change (last (x :: y :: l) d) with (last (y :: l) d).
  change (last (x :: y :: l) d') with (last (y :: l) d'). apply IH.
Qed.

Lemma last_caught_some (e : exn) (es : list exn) (l : option exn) :
  last_caught l (map Some (e :: es)) = Some (last (e :: es) e).
Proof.
  revert e l. induction es as [|e' es IH]; intros e l; [reflexivity|].
  change (last_caught l (map Some (e :: e' :: es)))
    with (last_caught (Some e) (map Some (e' :: es))).
  rewrite IH. change (last (e :: e' :: es) e) with (last (e' :: es) e).
  f_equal. apply last_nonempty.
Qed.

Lemma last_caught_none (n : nat) (l : option exn) :
  last_caught l (repeat None n) = l.
Proof. induction n as [|n IH]; [reflexivity | exact IH]. Qed.

Lemma sleeps_failure_trace (backoff : float) (mv : string)
  (input : list (string * string)) (retries : Z) (os : list (option exn)) :
  forall a,
    sleeps (failure_trace backoff mv input a retries os) = sleeps_after backoff a os.
Proof.
  induction os as [|[e|] os IH]; intros a; [reflexivity | |].
  - cbn [failure_trace sleeps_after]. unfold sleeps in *. cbn [flat_map app].
    f_equal. apply IH.
  - cbn [failure_trace sleeps_after]. unfold sleeps in *. cbn [flat_map app].
    apply IH.
Qed.

Lemma sleeps_app (evs evs' : list event) :
  sleeps (evs ++ evs') = (sleeps evs ++ sleeps evs')%list.
Proof. unfold sleeps. apply flat_map_app. Qed.

Lemma runs_failure_trace (backoff : float) (mv : string)
  (input : list (string * string)) (retries : Z) (os : list (option exn)) :
  forall a,
    runs (failure_trace backoff mv input a retries os) = List.length os.
Proof.
  unfold runs.
  induction os as [|[e|] os IH]; intros a; [reflexivity | |];
    cbn [failure_trace filter is_run List.length]; rewrite IH; reflexivity.
Qed.

Section WithPlatform.
Context {P : Platform}.

Lemma loop_step_soft (k : nat) (a retries : Z) (backoff : float) (mv : string)
  (input : list (string * string)) (l : option exn) (w w1 : world) :
  try_body mv input w = (FallThrough, w1) ->
  attempt_loop (S k) a retries backoff mv input l w =
  (let '(res, w2, evs) := attempt_loop k (a + 1) retries backoff mv input l w1 in
   (res, w2, EvReplicateRun mv input :: evs)).
Proof. intros H. simpl. rewrite H. reflexivity. Qed.

Lemma loop_step_return (k : nat) (a retries : Z) (backoff : float) (mv : string)
  (input : list (string * string)) (l : option exn) (w w1 : world) urls :
  try_body mv input w = (Return urls, w1) ->
  attempt_loop (S k) a retries backoff mv input l w =
  (Ok urls, w1, [EvReplicateRun mv input]).
Proof. intros H. simpl. rewrite H. reflexivity. Qed.

Lemma loop_step_caught (k : nat) (a retries : Z) (backoff : float) (mv : string)
  (input : list (string * string)) (l : option exn) (w w1 w2 : world) e :
  try_body mv input w = (Raised e, w1) ->
  is_Exception e = true ->
  time_sleep (backoff * PyFloat.of_Z a)%float w1 = (Ok tt, w2) ->
  attempt_loop (S k) a retries backoff mv input l w =
  (let '(res, w3, evs) :=
     attempt_loop k (a + 1) retries backoff mv input (Some e) w2 in
   (res, w3,
    EvReplicateRun mv input :: EvWarning a retries e ::
    EvSleep (backoff * PyFloat.of_Z a)%float :: evs)).
Proof. intros H He Hs. simpl. rewrite H, He, Hs. reflexivity. Qed.

Lemma loop_step_uncaught (k : nat) (a retries : Z) (backoff : float) (mv : string)
  (input : list (string * string)) (l : option exn) (w w1 : world) e :
  try_body mv input w = (Raised e, w1) ->
  is_Exception e = false ->
  attempt_loop (S k) a retries backoff mv input l w =
  (Raise e, w1, [EvReplicateRun mv input]).
Proof. intros H He. simpl. rewrite H, He. reflexivity. Qed.

Lemma loop_step_refused (k : nat) (a retries : Z) (backoff : float) (mv : string)
  (input : list (string * string)) (l : option exn) (w w1 w2 : world) e e' :
  try_body mv input w = (Raised e, w1) ->
  is_Exception e = true ->
  time_sleep (backoff * PyFloat.of_Z a)%float w1 = (Raise e', w2) ->
  attempt_loop (S k) a retries backoff mv input l w =
  (Raise e', w2, [EvReplicateRun mv input; EvWarning a retries e]).
Proof. intros H He Hs. simpl. rewrite H, He, Hs. reflexivity. Qed.

(** The loop after turns that failed: it goes on from where they left the
    world, the attempt number and the remembered exception, and its trace
    starts with theirs. *)
Lemma loop_after_failures (backoff : float) (mv : string)
  (input : list (string * string)) (retries : Z) (k : nat)
  (os : list (option exn)) :
  forall a l w w',
    attempts_fail backoff mv input a w os w' ->
    attempt_loop (List.length os + k) a retries backoff mv input l w =
    (let '(res, w2, evs) :=
       attempt_loop k (a + Z.of_nat (List.length os)) retries backoff mv input
         (last_caught l os) w' in
     (res, w2, failure_trace backoff mv input a retries os ++ evs)).
Proof.
  induction os as [|[e|] os IH]; intros a l w w' H.
  - cbn [attempts_fail] in H. subst w'. cbn [List.length Nat.add failure_trace app].
    replace (a + Z.of_nat 0) with a by lia. unfold last_caught. cbn [fold_left].
    destruct (attempt_loop k a retries backoff mv input l w) as [[res w2] evs].
    reflexivity.
  - destruct H as (w1 & w2 & Hb & He & Hs & Hrest).
    cbn [List.length Nat.add].
    rewrite (loop_step_caught _ _ _ _ _ _ _ _ _ _ _ Hb He Hs).
    rewrite (IH (a + 1) (Some e) w2 w' Hrest).
    replace (a + 1 + Z.of_nat (List.length os))
      with (a + Z.of_nat (S (List.length os))) by lia.
    change (last_caught (Some e) os) with (last_caught l (Some e :: os)).
    destruct (attempt_loop k _ retries backoff mv input _ w') as [[res w3] evs].
    reflexivity.
  - destruct H as (w1 & Hb & Hrest).
    cbn [List.length Nat.add].
    rewrite (loop_step_soft _ _ _ _ _ _ _ _ _ Hb).
    rewrite (IH (a + 1) l w1 w' Hrest).
    replace (a + 1 + Z.of_nat (List.length os))
      with (a + Z.of_nat (S (List.length os))) by lia.
    change (last_caught l os) with (last_caught l (None :: os)).
    destruct (attempt_loop k _ retries backoff mv input _ w') as [[res w3] evs].
    reflexivity.
Qed.

(** A run whose turns all fail. *)
Lemma loop_all_fail (backoff : float) (mv : string)
  (input : list (string * string)) (retries : Z) (os : list (option exn))
  (a : Z) (l : option exn) (w w' : world) :
  attempts_fail backoff mv input a w os w' ->
  attempt_loop (List.length os) a retries backoff mv input l w =
  (Raise (raised_at_end (last_caught l os)), w',
   failure_trace backoff mv input a retries os).
Proof.
  intros H. pose proof (loop_after_failures backoff mv input retries 0 os a l w w' H)
    as E.
  rewrite Nat.add_0_r in E. rewrite E. cbn [attempt_loop]. rewrite app_nil_r.
  reflexivity.
Qed.

Lemma loop_runs (backoff : float) (mv : string) (input : list (string * string))
  (retries : Z) (n : nat) :
  forall a l w,
    (runs (snd (attempt_loop n a retries backoff mv input l w)) <= n)%nat.
Proof.
  induction n as [|n IH]; intros a l w; simpl.
  - apply Nat.le_refl.
  - destruct (try_body mv input w) as [[urls| |e] w1].
    + simpl. unfold runs. simpl. lia.
    + specialize (IH (a + 1) l w1).
      destruct (attempt_loop n (a + 1) retries backoff mv input l w1) as [[res w2] evs].
      simpl in *. unfold runs in *. simpl. lia.
    + destruct (is_Exception e); [|unfold runs; simpl; lia].
      destruct (time_sleep (backoff * PyFloat.of_Z a)%float w1) as [[[]|e'] w2].
      * specialize (IH (a + 1) (Some e) w2).
        destruct (attempt_loop n (a + 1) retries backoff mv input (Some e) w2)
          as [[res w3] evs].
        simpl in *. unfold runs in *. simpl. lia.
      * unfold runs. simpl. lia.
Qed.

(** C2, as amended.  Take a run of [run_model] whose first attempts fail as
    [os] tells: an exception that [except Exception] catches, with a sleep
    the clock accepts, or no locator and no exception.  Its trace starts
    with the trace in which every attempt that ended in an exception is
    followed at once by the warning and by a sleep of [backoff * attempt],
    and every attempt that ended without exception is followed by nothing.
    When these were all [retries] attempts, that is the whole trace, the
    last attempt being followed by its sleep like the others; when the next
    attempt returns, the trace ends with that attempt's call.  So the
    lengths slept are [backoff * attempt] for the attempts that ended in an
    exception, in order, and nothing else. *)
Theorem sleep_follows_every_exception (model prompt : string) (retries : Z)
  (backoff : float) (w w' : world) (os : list (option exn)) :
  let input := fst (adapt model prompt) in
  let mv := snd (adapt model prompt) in
  let evs := snd (run_model model prompt retries backoff w) in
  attempts_fail backoff mv input 1 w os w' ->
  (List.length os = Z.to_nat retries ->
   evs = failure_trace backoff mv input 1 retries os /\
   sleeps evs = sleeps_after backoff 1 os) /\
  (forall urls w1,
     (List.length os < Z.to_nat retries)%nat ->
     try_body mv input w' = (Return urls, w1) ->
     evs = (failure_trace backoff mv input 1 retries os ++
            [EvReplicateRun mv input])%list /\
     sleeps evs = sleeps_after backoff 1 os).
Proof.
  unfold run_model. destruct (adapt model prompt) as [input mv].
  cbn [fst snd]. intros Hos. split.
  - intros Hlen. rewrite <- Hlen.
    rewrite (loop_all_fail backoff mv input retries os 1 None w w' Hos).
    cbn [snd]. split; [reflexivity | apply sleeps_failure_trace].
  - intros urls w1 Hlt Hret.
    replace (Z.to_nat retries)
      with (List.length os + S (Z.to_nat retries - List.length os - 1))%nat by lia.
    rewrite (loop_after_failures backoff mv input retries _ os 1 None w w' Hos).
    rewrite (loop_step_return _ _ _ _ _ _ _ _ _ _ Hret). cbn [snd].
    split; [reflexivity|].
    rewrite sleeps_app, sleeps_failure_trace. apply app_nil_r.
Qed.

(** C3, as amended.  [run_model] calls the service at most [retries] times.
    When every one of the [retries] attempts ends in an exception that
    [except Exception] catches and every sleep is accepted, the exception of
    the last attempt is raised if it is true, and the [RuntimeError] about
    no usable URL if it is false; when every attempt ends without a locator
    and without an exception, that [RuntimeError] is raised.  An attempt
    that raises what is no [Exception] ends the run with it at once, with no
    warning and no sleep; an attempt whose sleep the clock refuses ends the
    run with the clock's error, right after the warning. *)
Theorem at_most_retries_then_error (model prompt : string) (retries : Z)
  (backoff : float) (w : world) :
  let input := fst (adapt model prompt) in
  let mv := snd (adapt model prompt) in
  let out := run_model model prompt retries backoff w in
  (runs (snd out) <= Z.to_nat retries)%nat /\
  (forall es w', List.length es = Z.to_nat retries ->
     attempts_fail backoff mv input 1 w (map Some es) w' ->
     fst (fst out) =
     Raise (let e := last es no_usable_url in
            if truth e then e else no_usable_url)) /\
  (forall w',
     attempts_fail backoff mv input 1 w (repeat None (Z.to_nat retries)) w' ->
     fst (fst out) = Raise no_usable_url) /\
  (forall os w' w1 e,
     (List.length os < Z.to_nat retries)%nat ->
     attempts_fail backoff mv input 1 w os w' ->
     try_body mv input w' = (Raised e, w1) ->
     is_Exception e = false ->
     out = (Raise e, w1,
            (failure_trace backoff mv input 1 retries os ++
             [EvReplicateRun mv input])%list)) /\
  (forall os w' w1 w2 e e',
     (List.length os < Z.to_nat retries)%nat ->
     attempts_fail backoff mv input 1 w os w' ->
     try_body mv input w' = (Raised e, w1) ->
     is_Exception e = true ->
     time_sleep (backoff * PyFloat.of_Z (1 + Z.of_nat (List.length os)))%float w1 =
       (Raise e', w2) ->
     out = (Raise e', w2,
            (failure_trace backoff mv input 1 retries os ++
             [EvReplicateRun mv input;
              EvWarning (1 + Z.of_nat (List.length os)) retries e])%list)).
Proof.
  unfold run_model. destruct (adapt model prompt) as [input mv].
  cbn [fst snd]. split; [apply loop_runs|]. split; [|split; [|split]].
  - intros es w' Hlen Hall. rewrite <- Hlen, <- (length_map Some es).
    rewrite (loop_all_fail backoff mv input retries _ 1 None w w' Hall).
    cbn [fst]. f_equal. destruct es as [|e es]; [reflexivity|].
    rewrite last_caught_some. unfold raised_at_end.
    rewrite (last_nonempty e no_usable_url e es). reflexivity.
  - intros w' Hall. rewrite <- (repeat_length (@None exn) (Z.to_nat retries)) at 1.
    rewrite (loop_all_fail backoff mv input retries _ 1 None w w' Hall).
    rewrite last_caught_none. reflexivity.
  - intros os w' w1 e Hlt Hos Hb He.
    replace (Z.to_nat retries)
      with (List.length os + S (Z.to_nat retries - List.length os - 1))%nat by lia.
    rewrite (loop_after_failures backoff mv input retries _ os 1 None w w' Hos).
    rewrite (loop_step_uncaught _ _ _ _ _ _ _ _ _ _ Hb He). reflexivity.
  - intros os w' w1 w2 e e' Hlt Hos Hb He Hs.
    replace (Z.to_nat retries)
      with (List.length os + S (Z.to_nat retries - List.length os - 1))%nat by lia.
    rewrite (loop_after_failures backoff mv input retries _ os 1 None w w' Hos).
    rewrite (loop_step_refused _ _ _ _ _ _ _ _ _ _ _ _ Hb He Hs). reflexivity.
Qed.

(** C9. When the service answers with a list that holds no string, the
    turn returns the empty list at once: no further call, no warning, no
    sleep, no exception.  The orchestrator's [generate] is what turns the
    empty list into the [RuntimeError] about missing URLs, before any
    download. *)
Theorem empty_list_is_returned_then_fatal :
  (forall (k : nat) (a retries : Z) (backoff : float) (mv : string)
          (input : list (string * string)) (l : option exn) (w w1 : world)
          (items : list pyval),
     replicate_run mv input w = (Ok (PList items), w1) ->
     strings_of items = [] ->
     attempt_loop (S k) a retries backoff mv input l w =
     (Ok [], w1, [EvReplicateRun mv input])) /\
  (forall (args : Args) (prompt audio_path : string) (w w1 : world)
          (evs : list event),
     run_model (model args) prompt 3 2%float (snd (perf_counter w)) =
       (Ok [], w1, evs) ->
     generate args prompt audio_path w =
     (Raise (RuntimeError "No audio URLs returned by the model"),
      snd (perf_counter w1), evs)).
Proof.
  split.
  - intros k a retries backoff mv input l w w1 items Hrun Hnone.
    apply loop_step_return. unfold try_body. rewrite Hrun.
    unfold handle_output. cbn [is_none as_str as_list]. rewrite Hnone. reflexivity.
  - intros args prompt audio_path w w1 evs Hrun.
    unfold generate, mbind, now, call.
    destruct (perf_counter w) as [t0 w0] eqn:E0. cbn [snd] in Hrun.
    rewrite Hrun. destruct (perf_counter w1) as [t1 w2] eqn:E1.
    cbn. rewrite app_nil_r. reflexivity.
Qed.


End WithPlatform.

(** Runs on the reference platform. *)

Lemma sleep_follows_every_exception_witness :
  snd (run_model (P := Demo.platform) "some/model" "Jazz trio" 3 2%float
         (Demo.scripted [Raise timeout_error; Ok PNone; Raise busy_error])) =
  [ EvReplicateRun "some/model" [("prompt", "Jazz trio")];
    EvWarning 1 3 timeout_error; EvSleep 2%float;
    EvReplicateRun "some/model" [("prompt", "Jazz trio")];
    EvReplicateRun "some/model" [("prompt", "Jazz trio")];
    EvWarning 3 3 busy_error; EvSleep 6%float ].
Proof.
  refine (proj1 (proj1 (sleep_follows_every_exception (P := Demo.platform)
            "some/model" "Jazz trio" 3 2%float
            (Demo.scripted [Raise timeout_error; Ok PNone; Raise busy_error])
            (Demo.advance 6%float (Demo.advance 2%float (Demo.scripted [])))
            [Some timeout_error; None; Some busy_error] _) eq_refl)).
  simpl.
  eexists. eexists. split; [reflexivity|]. split; [reflexivity|].
  split; [reflexivity|].
  eexists. split; [reflexivity|].
  eexists. eexists. split; [reflexivity|]. split; [reflexivity|].
  split; reflexivity.
Defined.

Lemma at_most_retries_then_error_witness :
  fst (fst (run_model (P := Demo.platform) "meta/musicgen" "Dreamy synthwave" 3
              2%float
              (Demo.scripted
                 [Raise timeout_error; Raise timeout_error; Raise busy_error]))) =
  Raise busy_error.
Proof.
  refine (proj1 (proj2 (at_most_retries_then_error (P := Demo.platform)
            "meta/musicgen" "Dreamy synthwave" 3 2%float
            (Demo.scripted
               [Raise timeout_error; Raise timeout_error; Raise busy_error])))
            [timeout_error; timeout_error; busy_error]
            (Demo.advance 6%float
               (Demo.advance 4%float (Demo.advance 2%float (Demo.scripted []))))
            eq_refl _).
  simpl.
  repeat (eexists; eexists; split; [reflexivity|]; split; [reflexivity|];
          split; [reflexivity|]).
  reflexivity.
Defined.


Lemma empty_list_is_returned_then_fatal_witness :
  attempt_loop (P := Demo.platform) 3 1 3 2%float "some/model"
    [("prompt", "Jazz trio")] None
    (Demo.scripted [Ok (PList [PNone; PList []]); Ok (PStr "https://cdn/x.mp3")]) =
  (Ok [], Demo.scripted [Ok (PStr "https://cdn/x.mp3")],
   [EvReplicateRun "some/model" [("prompt", "Jazz trio")]]).
Proof.
  apply (proj1 (empty_list_is_returned_then_fatal (P := Demo.platform)) 2%nat 1 3
           2%float "some/model" [("prompt", "Jazz trio")] None
           (Demo.scripted [Ok (PList [PNone; PList []]); Ok (PStr "https://cdn/x.mp3")])
           (Demo.scripted [Ok (PStr "https://cdn/x.mp3")])
           [PNone; PList []]); reflexivity.
Defined.

(** C2 as stated fails twice.  With [retries = 2], a first turn that ends
    without a locator is followed by the second call with no sleep between
    them, where the policy promises one of [backoff * 1]; with
    [retries = 1], the only turn raises and is followed by a sleep, where
    the policy promises none after the final attempt. *)
Lemma sleeps_differ_from_retry_policy :
  (sleeps (snd (run_model (P := Demo.platform) "some/model" "Jazz trio" 2 2%float
                  (Demo.scripted [Ok PNone; Ok PNone]))) = [] /\
   promised_sleeps 2 2%float 2 = [2%float]) /\
  (sleeps (snd (run_model (P := Demo.platform) "some/model" "Jazz trio" 1 2%float
                  (Demo.scripted [Raise timeout_error]))) = [2%float] /\
   promised_sleeps 1 2%float 1 = []).
Proof. repeat split; vm_compute; reflexivity. Qed.

(** C3 as stated fails when the clock refuses a sleep.  With a backoff of
    [-1] the first attempt ends in an exception of the service, and what
    [run_model] raises is the [ValueError] of [time.sleep], after that one
    call; the exception of the attempt is not raised again.  It fails as
    well on an exception that is false: after three attempts that all end in
    one, the [RuntimeError] about no usable URL is raised. *)
Lemma sleep_error_replaces_last_exception :
  (fst (fst (run_model (P := Demo.platform) "some/model" "Jazz trio" 3 (-1)%float
               (Demo.scripted
                  [Raise timeout_error; Raise busy_error; Raise busy_error]))) =
     Raise (ValueError "sleep length must be non-negative") /\
   runs (snd (run_model (P := Demo.platform) "some/model" "Jazz trio" 3 (-1)%float
                (Demo.scripted
                   [Raise timeout_error; Raise busy_error; Raise busy_error]))) =
     1%nat) /\
  fst (fst (run_model (P := Demo.platform) "some/model" "Jazz trio" 3 2%float
              (Demo.scripted
                 [Raise quiet_error; Raise quiet_error; Raise quiet_error]))) =
    Raise (RuntimeError "Model did not return a usable audio URL").
Proof. repeat split; vm_compute; reflexivity. Qed.

End RunModelFacts.

(** ** [audio_utils]: the energy scan, the start offset and the features *)

Module AudioFacts.
Import AudioUtils AudioSpec.

Section WithPlatform.
Context {P : Platform} {R : PyRandom}.

Lemma scan_prefix_S (y : list sample) (ws hop : Z) (n : nat) :
  scan_prefix y ws hop (S n) =
  scan_step y ws (scan_prefix y ws hop n) (nth_start hop n).
Proof.
  unfold scan_prefix, scan. rewrite seq_S, map_app, fold_left_app. reflexivity.
Qed.


Lemma hop_at_22050 : hop_samples_of 22050 = Ok 1102.
Proof. vm_compute. reflexivity. Qed.

Lemma nth_start_of_index (hop i : Z) :
  0 <= i -> nth_start hop (Z.to_nat i) = i * hop.
Proof. intros Hi. unfold nth_start. rewrite Z2Nat.id by exact Hi. lia. Qed.

Lemma index_in_scan (hop a i : Z) :
  0 < hop -> 0 <= a -> 0 <= i ->
  (i * hop <= a <-> (Z.to_nat i <= Z.to_nat (a / hop))%nat).
Proof.
  intros Hh Ha Hi.
  assert (Hq : 0 <= a / hop) by (apply Z.div_pos; lia).
  split.
  - intros Hle. assert (i <= a / hop) by (apply Z.div_le_lower_bound; lia). lia.
  - intros Hle. assert (i <= a / hop) by lia.
    pose proof (Z.mul_div_le a hop Hh). nia.
Qed.

Lemma clamp_start_range (start_ms length_ms snippet_ms : Z) :
  0 <= clamp_start start_ms length_ms snippet_ms <= Z.max 0 (length_ms - snippet_ms).
Proof. unfold clamp_start. lia. Qed.

(** The scan of [_find_highest_rms_window_ms] when it takes place. *)
Lemma find_highest_scans (path : string) (window_ms sr : Z) (w : world)
  (y : list sample) (ws hop : Z) :
  librosa_load path sr w = Ok y ->
  window_samples_of sr window_ms = Ok ws ->
  hop_samples_of sr = Ok hop ->
  0 < hop -> 0 < ws < len y ->
  _find_highest_rms_window_ms path window_ms sr w =
  ms_of_samples sr
    (fst (scan_prefix y ws hop (S (Z.to_nat ((len y - ws) / hop))))).
Proof.
  intros Hy Hws Hhop Hh Hw. unfold _find_highest_rms_window_ms.
  rewrite Hy. cbn [bind]. rewrite Hws, Hhop. cbn [bind].
  destruct (len y =? 0) eqn:E0; [apply Z.eqb_eq in E0; lia|].
  destruct (ws <=? 0) eqn:E1; [apply Z.leb_le in E1; lia|].
  destruct (len y <=? ws) eqn:E2; [apply Z.leb_le in E2; lia|].
  cbn [orb]. unfold py_range.
  destruct (hop =? 0) eqn:E3; [apply Z.eqb_eq in E3; lia|].
  destruct (0 <? hop) eqn:E4; [|apply Z.ltb_ge in E4; lia].
  cbn [bind].
  replace (len y - ws + 1 - 0 + hop - 1) with ((len y - ws) + 1 * hop) by lia.
  rewrite Z.div_add by lia.
  assert (Hq : 0 <= (len y - ws) / hop) by (apply Z.div_pos; lia).
  rewrite Z2Nat.inj_add by lia. change (Z.to_nat 1) with 1%nat.
  rewrite Nat.add_1_r. unfold scan_prefix, nth_start.
  destruct (scan y ws _) as [best_start best_rms]. reflexivity.
Qed.







(** The start offset when no window is scanned. *)
Lemma highest_rms_start_zero (source_wav : string) (snippet_ms length_ms : Z)
  (g : rng) (w : world) (y : list sample) :
  librosa_load source_wav 22050 w = Ok y ->
  (y = [] \/
   exists ws, window_samples_of 22050 snippet_ms = Ok ws /\ len y <= ws) ->
  _find_highest_rms_window_ms source_wav snippet_ms 22050 w = Ok 0 /\
  select_start "highest_rms" source_wav length_ms snippet_ms g w = Ok 0.
Proof.
  intros Hy Hshort.
  assert (Hfind : _find_highest_rms_window_ms source_wav snippet_ms 22050 w = Ok 0).
  { unfold _find_highest_rms_window_ms. rewrite Hy. cbn [bind].
    destruct Hshort as [-> | (ws & Hws & Hle)]; [reflexivity|].
    destruct (len y =? 0); [reflexivity|].
    rewrite Hws, hop_at_22050. cbn [bind].
    apply Z.leb_le in Hle. rewrite Hle, orb_true_r. reflexivity. }
  split; [exact Hfind|].
  unfold select_start. cbn [String.eqb Ascii.eqb Bool.eqb]. rewrite Hfind.
  cbn [bind]. f_equal. unfold clamp_start. lia.
Qed.

(** C10.  When the buffer decoded from the source file is empty, or the
    window of [target_ms] is at least as long as that buffer, the
    [highest_rms] method selects start offset 0 whatever the length of the
    audio after looping, and the snippet [make_snippet] exports is what the
    two fades make of the first [target_ms] milliseconds of the looped
    audio.  The scan
    reads the source file, so this is the case of every source whose
    decoded buffer is shorter than the window. *)
Theorem short_buffer_selects_offset_zero (source_wav target_wav : string)
  (snippet_ms fade_ms : Z) (sd : option Z) (w w1 w2 : world) (y : list sample)
  (audio0 audio faded snippet : list frame) :
  librosa_load source_wav 22050 w = Ok y ->
  (y = [] \/
   exists ws, window_samples_of 22050 snippet_ms = Ok ws /\ len y <= ws) ->
  from_file source_wav w = Ok audio0 ->
  loop_to_length audio0 snippet_ms = Ok audio ->
  fade_in fade_ms (slice audio 0 (0 + snippet_ms)) = Ok faded ->
  fade_out fade_ms faded = Ok snippet ->
  ensure_dir (dirname target_wav) w = (Ok tt, w1) ->
  export_wav target_wav snippet w1 = (Ok tt, w2) ->
  (forall length_ms g,
     select_start "highest_rms" source_wav length_ms snippet_ms g w = Ok 0) /\
  make_snippet source_wav target_wav snippet_ms fade_ms "highest_rms" sd w =
  (Ok {| so_return := (target_wav, "highest_rms",
                       (PyFloat.of_Z snippet_ms / 1000)%float);
         so_start_ms := 0;
         so_snippet := snippet |},
   w2).
Proof.
  intros Hy Hshort Hfile Hloop Hin Hout Hdir Hexport.
  assert (Hzero : forall length_ms g,
            select_start "highest_rms" source_wav length_ms snippet_ms g w = Ok 0)
    by (intros length_ms g;
        apply (highest_rms_start_zero source_wav snippet_ms length_ms g w y Hy Hshort)).
  split; [exact Hzero|].
  unfold make_snippet. rewrite Hfile, Hloop. cbn [bind].
  rewrite Hzero. cbn [bind]. rewrite Hin. cbn [bind]. rewrite Hout. cbn [bind].
  rewrite Hdir, Hexport. reflexivity.
Qed.

(** The six keys of a feature dictionary. *)
Lemma features_have_six_keys (wav_path : string) (w : world)
  (fs : list (string * float)) :
  compute_audio_features wav_path w = Ok fs ->
  exists d t r c z m,
    fs = [ ("duration_seconds", d); ("tempo_bpm", t); ("rms_mean", r);
           ("spectral_centroid_mean", c); ("zero_crossing_rate_mean", z);
           ("mfcc1_mean", m) ].
Proof.
  unfold compute_audio_features, load_audio_for_features.
  destruct (librosa_load wav_path 22050 w) as [y|e]; cbn [bind]; [|discriminate].
  destruct (len y =? 0).
  - intros H. inversion H. repeat eexists.
  - destruct (get_duration y 22050); cbn [bind]; [|discriminate].
    destruct (tempo_or_zero y 22050); cbn [bind]; [|discriminate].
    destruct (feature_rms_mean y); cbn [bind]; [|discriminate].
    destruct (feature_spectral_centroid_mean y 22050); cbn [bind]; [|discriminate].
    destruct (feature_zero_crossing_rate_mean y); cbn [bind]; [|discriminate].
    destruct (feature_mfcc1_mean y 22050); cbn [bind]; [|discriminate].
    intros H. inversion H. repeat eexists.
Qed.

Lemma tempo_or_zero_caught (y : list sample) (sr : Z) :
  (forall e, beat_track_tempo y sr = Raise e -> is_Exception e = true) ->
  tempo_or_zero y sr = Ok (or_zero (beat_track_tempo y sr)).
Proof.
  intros H. unfold tempo_or_zero, or_zero.
  destruct (beat_track_tempo y sr) as [t|e]; [reflexivity|].
  rewrite (H e eq_refl). reflexivity.
Qed.

(** C5, as amended.  On a non-empty buffer only the tempo estimate is
    isolated: when it fails with an exception, [tempo_bpm] reads [0.0] and
    the other five fields are what their computations returned, all six
    being present.  A failure of any of the other five (taken in the order
    duration, rms, spectral centroid, zero-crossing rate, mfcc) is raised to
    the caller and no feature vector is returned; so is what the tempo
    estimate raises when that is no [Exception]. *)
Theorem only_tempo_is_isolated (wav_path : string) (w : world) (y : list sample) :
  librosa_load wav_path 22050 w = Ok y ->
  y <> [] ->
  (forall d r c z m,
     get_duration y 22050 = Ok d ->
     (forall e, beat_track_tempo y 22050 = Raise e -> is_Exception e = true) ->
     feature_rms_mean y = Ok r ->
     feature_spectral_centroid_mean y 22050 = Ok c ->
     feature_zero_crossing_rate_mean y = Ok z ->
     feature_mfcc1_mean y 22050 = Ok m ->
     compute_audio_features wav_path w =
     Ok [ ("duration_seconds", d);
          ("tempo_bpm", or_zero (beat_track_tempo y 22050));
          ("rms_mean", r);
          ("spectral_centroid_mean", c);
          ("zero_crossing_rate_mean", z);
          ("mfcc1_mean", m) ]) /\
  (forall e,
     get_duration y 22050 = Raise e \/
     (exists d, get_duration y 22050 = Ok d /\
        (forall e', beat_track_tempo y 22050 = Raise e' -> is_Exception e' = true) /\
        (feature_rms_mean y = Raise e \/
         exists r, feature_rms_mean y = Ok r /\
           (feature_spectral_centroid_mean y 22050 = Raise e \/
            exists c, feature_spectral_centroid_mean y 22050 = Ok c /\
              (feature_zero_crossing_rate_mean y = Raise e \/
               exists z, feature_zero_crossing_rate_mean y = Ok z /\
                 feature_mfcc1_mean y 22050 = Raise e)))) ->
     compute_audio_features wav_path w = Raise e) /\
  (forall d e,
     get_duration y 22050 = Ok d ->
     beat_track_tempo y 22050 = Raise e ->
     is_Exception e = false ->
     compute_audio_features wav_path w = Raise e).
Proof.
  intros Hy Hne.
  assert (Hlen : (len y =? 0) = false).
  { apply Z.eqb_neq. unfold len. destruct y; [congruence | simpl; lia]. }
  unfold compute_audio_features, load_audio_for_features.
  rewrite Hy. cbn [bind]. rewrite Hlen. split; [|split].
  - intros d r c z m -> Ht -> -> -> ->.
    rewrite (tempo_or_zero_caught y 22050 Ht). reflexivity.
  - intros e [-> | (d & -> & Ht & H)]; [reflexivity|].
    rewrite (tempo_or_zero_caught y 22050 Ht). cbn [bind].
    destruct H as [-> | (r & -> & [-> | (c & -> & [-> | (z & -> & ->)])])];
      reflexivity.
  - intros d e -> Ht He. unfold tempo_or_zero. rewrite Ht, He. reflexivity.
Qed.

End WithPlatform.

(** Runs on the reference platform. *)

Lemma loud_tail_length : len Demo.loud_tail_pcm = 5000.
Proof. reflexivity. Qed.


Lemma short_buffer_selects_offset_zero_witness :
  select_start (P := Demo.platform) (R := lcg_random) "highest_rms" Demo.song_01
    300 200 0
    (Demo.with_file Demo.song_01 (Demo.frames_of 150) Demo.short_source_pcm) = Ok 0.
Proof.
  refine (proj1 (short_buffer_selects_offset_zero (P := Demo.platform)
            (R := lcg_random) Demo.song_01 "outputs/snippets/song_01_snippet.wav"
            200 500 (Some 42)
            (Demo.with_file Demo.song_01 (Demo.frames_of 150) Demo.short_source_pcm)
            _ _ Demo.short_source_pcm (Demo.frames_of 150)
            (Demo.frames_of 150 ++ Demo.frames_of 150)
            (Demo.frames_of 150 ++ Demo.frames_of 50)
            (Demo.frames_of 150 ++ Demo.frames_of 50) _ _ _ _ _ _ _ _) 300 0).
  - reflexivity.
  - right. exists 4410. split; [vm_compute; reflexivity | vm_compute; discriminate].
  - reflexivity.
  - vm_compute. reflexivity.
  - vm_compute. reflexivity.
  - reflexivity.
  - reflexivity.
  - reflexivity.
Defined.


Lemma only_tempo_is_isolated_witness :
  compute_audio_features (P := Demo.platform) Demo.song_01
    (Demo.with_file Demo.song_01 (Demo.frames_of 1) [0.5%float; 0.25%float]) =
  Ok [ ("duration_seconds", (PyFloat.of_Z 2 / PyFloat.of_Z 22050)%float);
       ("tempo_bpm", 0%float);
       ("rms_mean", Demo.rms [0.5%float; 0.25%float]);
       ("spectral_centroid_mean", 1000%float);
       ("zero_crossing_rate_mean", 0%float);
       ("mfcc1_mean", (-100)%float) ].
Proof.
  apply (proj1 (only_tempo_is_isolated (P := Demo.platform) Demo.song_01
                  (Demo.with_file Demo.song_01 (Demo.frames_of 1)
                     [0.5%float; 0.25%float])
                  [0.5%float; 0.25%float] eq_refl ltac:(discriminate)));
    try reflexivity.
  intros e H. injection H as <-. reflexivity.
Defined.

(** C5 as stated fails: on a buffer that is not finite everywhere the
    spectral centroid raises, and the extractor raises with it instead of
    returning the vector with that field at [0.0]. *)
Lemma centroid_failure_aborts_extraction :
  compute_audio_features (P := Demo.platform) Demo.song_01
    (Demo.with_file Demo.song_01 (Demo.frames_of 1) not_finite_pcm) =
  Raise (Exn "ParameterError" "Audio buffer is not finite everywhere") /\
  compute_audio_features (P := Demo.platform) Demo.song_01
    (Demo.with_file Demo.song_01 (Demo.frames_of 1) not_finite_pcm) <>
  Ok (isolated_features (P := Demo.platform) not_finite_pcm 22050).
Proof. split; [vm_compute; reflexivity | vm_compute; discriminate]. Qed.

End AudioFacts.

(** ** The orchestrator: resuming against the ledger *)

Module OrchestratorFacts.
Import Pipeline OrchestratorSpec.

(** What the extractor and the selector return in that world. *)
Definition rerun_features : result (list (string * float)) :=
  Eval vm_compute in
    AudioUtils.compute_audio_features (P := Demo.platform) (audio_path_of 0)
      (snd (uuid4 (Platform := Demo.platform) (rerun_with longer_ledger))).

Definition rerun_snippet : result (AudioUtils.snippet_out Z) * Demo.state :=
  Eval vm_compute in
    AudioUtils.make_snippet (P := Demo.platform) (R := lcg_random)
      (audio_path_of 0) (snippet_path_of 0) 1000 500 "random" (Some 42)
      (snd (uuid4 (Platform := Demo.platform) (rerun_with longer_ledger))).

Lemma column_present (df : DataFrame) (column : string) :
  In column (df_columns df) ->
  df_get df column =
  Some (map (fun r => match dict_get column r with
                      | Some c => c
                      | None => CFloat nan
                      end) (df_rows df)).
Proof.
  intros H. unfold df_get.
  assert (E : existsb (String.eqb column) (df_columns df) = true).
  { apply existsb_exists. exists column. split; [exact H | apply String.eqb_refl]. }
  rewrite E. reflexivity.
Qed.

Lemma cell_is_audio_path (path : string) (r : row) :
  cell_is path (match dict_get "audio_path" r with
                | Some c => c
                | None => CFloat nan
                end) = has_audio_path path r.
Proof.
  unfold has_audio_path. destruct (dict_get "audio_path" r) as [[s|f]|]; reflexivity.
Qed.

Section WithPlatform.
Context {P : Platform} {R : PyRandom}.

(** What the two look-ups of the skip path find in a ledger that holds a
    row for the path. *)
Lemma recorded_time_of_row (df : DataFrame) (path : string) (r0 : row) (t : float) :
  In "audio_path" (df_columns df) ->
  In "generation_time_seconds" (df_columns df) ->
  ledger_row df path = Some r0 ->
  dict_get "generation_time_seconds" r0 = Some (CFloat t) ->
  already_generated (Some df) path = Ok (Some df) /\
  recorded_gen_time df path = Ok t.
Proof.
  intros Hp Ht Hrow Htime. unfold already_generated, recorded_gen_time, ledger_row in *.
  rewrite (column_present df _ Hp), (column_present df _ Ht).
  induction (df_rows df) as [|r rows IH]; [discriminate Hrow|].
  cbn [find] in Hrow. cbn [map existsb combine filter fst].
  rewrite !cell_is_audio_path.
  destruct (has_audio_path path r) eqn:E.
  - inversion Hrow; subst r0. rewrite Htime. split; reflexivity.
  - cbn [orb]. exact (IH Hrow).
Qed.

Lemma make_snippet_returns (source_wav target_wav : string) (snippet_ms fade_ms : Z)
  (method : string) (sd : option Z) (w w' : world)
  (out : AudioUtils.snippet_out frame) :
  AudioUtils.make_snippet source_wav target_wav snippet_ms fade_ms method sd w =
    (Ok out, w') ->
  AudioUtils.so_return out =
    (target_wav, method, (PyFloat.of_Z snippet_ms / 1000)%float).
Proof.
  unfold AudioUtils.make_snippet.
  destruct (from_file source_wav w) as [audio0|e]; [|discriminate].
  destruct (bind (AudioUtils.loop_to_length audio0 snippet_ms) _)
    as [[start_ms snippet]|e]; [|discriminate].
  destruct (AudioUtils.ensure_dir _ w) as [[[]|e] w1]; [|discriminate].
  destruct (export_wav target_wav snippet w1) as [[[]|e] w2]; [|discriminate].
  intros H. inversion H. reflexivity.
Qed.

Lemma load_existing_some (args : Args) (w0 : world) (df : DataFrame) :
  force args = false ->
  path_exists csv_path w0 = true ->
  read_csv csv_path w0 = Ok df ->
  load_existing args w0 = Ok (Some df).
Proof.
  intros Hf He Hr. unfold load_existing. rewrite Hf, He, Hr. reflexivity.
Qed.

(** C6, as amended.  On a run that is not forced and has loaded a ledger
    [df] with the two columns, take a track [k] whose audio path the ledger
    holds, [r0] being the first row with that path and [t] the time recorded
    in it.  The body of the loop for [k] calls neither the model nor the
    downloader (its trace is empty and the world it leaves is the one
    [uuid4] and [make_snippet] leave), writes [round(t, 3)] into the new
    row, and fills the feature and snippet fields from what the extractor
    and the selector return on the audio file as it is now. *)
Theorem resume_skips_generation (args : Args) (mv : option string) (k : Z)
  (prompt : string) (w0 w w1 w2 : world) (df : DataFrame) (r0 : row)
  (t : float) (id : string) (features : list (string * float))
  (snip : AudioUtils.snippet_out frame) :
  force args = false ->
  path_exists csv_path w0 = true ->
  read_csv csv_path w0 = Ok df ->
  In "audio_path" (df_columns df) ->
  In "generation_time_seconds" (df_columns df) ->
  ledger_row df (audio_path_of k) = Some r0 ->
  dict_get "generation_time_seconds" r0 = Some (CFloat t) ->
  uuid4 w = (id, w1) ->
  AudioUtils.compute_audio_features (audio_path_of k) w1 = Ok features ->
  AudioUtils.make_snippet (audio_path_of k) (snippet_path_of k)
    (snippet_seconds args * 1000) 500 (snippet_method args)
    (Some (seed args + k)) w1 = (Ok snip, w2) ->
  load_existing args w0 = Ok (Some df) /\
  exists d tempo r c z m,
    features = [ ("duration_seconds", d); ("tempo_bpm", tempo); ("rms_mean", r);
                 ("spectral_centroid_mean", c); ("zero_crossing_rate_mean", z);
                 ("mfcc1_mean", m) ] /\
    track args (Some df) mv k prompt w =
    (Ok [ ("song_id", CStr id);
          ("prompt", CStr prompt);
          ("model", CStr (model args));
          ("model_version", CStr (match mv with Some v => v | None => "" end));
          ("audio_path", CStr (audio_path_of k));
          ("generation_time_seconds", CFloat (PyFloat.round t 3));
          ("snippet_path", CStr (snippet_path_of k));
          ("snippet_method", CStr (snippet_method args));
          ("snippet_length",
           CFloat (PyFloat.of_Z (snippet_seconds args * 1000) / 1000)%float);
          ("duration_seconds", CFloat d);
          ("tempo_bpm", CFloat tempo);
          ("rms_mean", CFloat r);
          ("spectral_centroid_mean", CFloat c);
          ("zero_crossing_rate_mean", CFloat z);
          ("mfcc1_mean", CFloat m) ],
     w2, []).
Proof.
  intros Hforce Hexists Hread Hcp Hct Hrow Htime Hid Hfeat Hsnip.
  split; [exact (load_existing_some args w0 df Hforce Hexists Hread)|].
  destruct (AudioFacts.features_have_six_keys _ _ _ Hfeat)
    as (d & tempo & r & c & z & m & Hshape).
  exists d, tempo, r, c, z, m. split; [exact Hshape|].
  destruct (recorded_time_of_row df (audio_path_of k) r0 t Hcp Hct Hrow Htime)
    as [Hhit Hrec].
  unfold track, mbind, call, read.
  rewrite Hid, Hhit, Hrec, Hfeat, Hsnip.
  rewrite (make_snippet_returns _ _ _ _ _ _ _ _ _ Hsnip).
  unfold ret. rewrite Hshape. reflexivity.
Qed.

End WithPlatform.

(** On the longer ledger the time written for track 0 is that of the first
    row for [song_01.wav], rounded: 12.346 for the recorded 12.34567, not
    the 3.25 of the first row and not the 99 of the later row for the same
    path. *)
Lemma resume_skips_generation_witness :
  match track (P := Demo.platform) (R := lcg_random) rerun_args
          (Some longer_ledger) None 0
          "Melancholic acoustic guitar ballad" (rerun_with longer_ledger)
  with
  | (Ok new_row, _, evs) =>
      evs = [] /\
      dict_get "generation_time_seconds" new_row = Some (CFloat time_12_346) /\
      dict_get "rms_mean" new_row = Some (CFloat 0.25%float)
  | _ => False
  end.
Proof.
  edestruct (resume_skips_generation (P := Demo.platform) (R := lcg_random)
               rerun_args None 0 "Melancholic acoustic guitar ballad"
               (rerun_with longer_ledger) (rerun_with longer_ledger))
    as (_ & d & tempo & r & c & z & m & Hshape & Htrack).
  - reflexivity.
  - reflexivity.
  - reflexivity.
  - right. left. reflexivity.
  - right. right. left. reflexivity.
  - reflexivity.
  - reflexivity.
  - reflexivity.
  - transitivity rerun_features; [vm_compute; reflexivity | reflexivity].
  - transitivity rerun_snippet; [vm_compute; reflexivity | reflexivity].
  - rewrite Htrack. inversion Hshape.
    split; [reflexivity|]. split; [vm_compute; reflexivity | reflexivity].
Defined.

(** C6 as stated fails on a ledger whose recorded time is not already
    rounded to three decimals: the ledger says 12.34567 for [song_01.wav],
    and the new row of track 0 says 12.346. *)
Lemma recorded_time_is_rounded_again :
  recorded_gen_time (P := Demo.platform) unrounded_ledger (audio_path_of 0) =
    Ok time_12_34567 /\
  match fst (fst (track (P := Demo.platform) (R := lcg_random) rerun_args
                    (Some unrounded_ledger) None 0
                    "Melancholic acoustic guitar ballad"
                    (rerun_with unrounded_ledger)))
  with
  | Ok new_row =>
      dict_get "generation_time_seconds" new_row = Some (CFloat time_12_346)
  | Raise _ => False
  end /\
  PrimFloat.eqb time_12_34567 time_12_346 = false.
Proof.
  split; [vm_compute; reflexivity|].
  split; [vm_compute; reflexivity | vm_compute; reflexivity].
Qed.

End OrchestratorFacts.

(** ** More about [sample_prompts] *)

Module PromptsMore.
Import Prompts.

Section WithRandom.
Context {R : PyRandom}.

Lemma choices_from_pool (seq : list string) (n : nat) :
  seq <> [] ->
  forall g, exists ps,
    fst (PyRandomOps.choices n g seq) = Ok ps /\
    List.length ps = n /\ incl ps seq.
Proof.
  intros Hne. induction n as [|n IH]; intros g.
  - exists []. repeat split. intros x [].
  - simpl. unfold PyRandomOps.choice.
    destruct seq as [|x0 seq']; [congruence|].
    pose proof (rng_below_range g (Z.of_nat (List.length (x0 :: seq')))
                  ltac:(simpl; lia)) as Hr.
    destruct (rng_below g (Z.of_nat (List.length (x0 :: seq')))) as [i g1].
    cbn [fst] in Hr.
    destruct (IH g1) as (ps & Hps & Hlen & Hin).
    destruct (PyRandomOps.choices n g1 (x0 :: seq')) as [[xs|e] g2];
      cbn [fst] in Hps; [|discriminate].
    inversion Hps; subst xs.
    eexists. split; [reflexivity|]. split; [simpl; lia|].
    intros p [<- | Hp]; [|apply Hin, Hp].
    apply nth_In. lia.
Qed.

(** X1.  Asked for more prompts than the pool holds, [sample_prompts]
    returns that many prompts, all from the pool, and some prompt occurs
    twice among them. *)
Theorem more_than_pool_repeats (n seed : Z) (g : rng) :
  30 < n ->
  exists ps,
    fst (sample_prompts n seed g) = Ok ps /\
    Z.of_nat (List.length ps) = n /\ incl ps PROMPT_POOL /\ ~ NoDup ps.
Proof.
  intros Hn. unfold sample_prompts. rewrite PromptsFacts.pool_length.
  destruct (n <=? Z.of_nat 30) eqn:E; [apply Z.leb_le in E; lia|].
  destruct (choices_from_pool PROMPT_POOL (Z.to_nat n) ltac:(discriminate)
              (rng_seed seed)) as (ps & Hps & Hlen & Hin).
  exists ps. repeat split; try assumption; [lia|].
  intros Hnd. pose proof (NoDup_incl_length Hnd Hin) as Hle.
  rewrite PromptsFacts.pool_length in Hle. lia.
Qed.

End WithRandom.

Lemma more_than_pool_repeats_witness :
  exists ps,
    fst (sample_prompts (R := lcg_random) 31 42 0) = Ok ps /\
    Z.of_nat (List.length ps) = 31 /\ incl ps PROMPT_POOL /\ ~ NoDup ps.
Proof. apply (more_than_pool_repeats (R := lcg_random) 31 42 0). lia. Defined.

End PromptsMore.

(** ** More about [run_model] *)

Module RunModelMore.
Import Pipeline RunModelSpec RetrySpec NamesSpec.

Lemma string_append_assoc (a b c : string) :
  ((a ++ b) ++ c = a ++ (b ++ c))%string.
Proof. induction a as [|x a IH]; simpl; [reflexivity | rewrite IH; reflexivity]. Qed.

Lemma prefix_spec (needle hay : string) :
  String.prefix needle hay = true <-> exists post, hay = (needle ++ post)%string.
Proof.
  revert hay. induction needle as [|a needle IH]; intros hay.
  - split; [intros _; exists hay; reflexivity | intros _; destruct hay; reflexivity].
  - destruct hay as [|b hay]; simpl.
    + split; [discriminate | intros (post & H); discriminate H].
    + destruct (ascii_dec a b) as [->|Hne].
      * rewrite IH. split; intros (post & H); exists post.
        -- rewrite H. reflexivity.
        -- inversion H. reflexivity.
      * split; [discriminate|]. intros (post & H). inversion H. congruence.
Qed.

Lemma contains_nil (needle : string) :
  contains needle "" = String.prefix needle "" || false.
Proof. reflexivity. Qed.

Lemma contains_cons (needle : string) (c : ascii) (hay : string) :
  contains needle (String c hay) =
  String.prefix needle (String c hay) || contains needle hay.
Proof. reflexivity. Qed.

Lemma contains_spec (needle hay : string) :
  contains needle hay = true <-> occurs_in needle hay.
Proof.
  unfold occurs_in. split.
  - induction hay as [|c hay IH]; intros H.
    + rewrite contains_nil, orb_false_r in H. apply prefix_spec in H.
      destruct H as (post & H). exists "", post. exact H.
    + rewrite contains_cons in H. apply orb_prop in H. destruct H as [H|H].
      * apply prefix_spec in H. destruct H as (post & H).
        exists "", post. exact H.
      * destruct (IH H) as (pre & post & E).
        exists (String c pre), post. rewrite E. reflexivity.
  - intros (pre & post & E). revert hay E.
    induction pre as [|c pre IH]; intros hay E.
    + assert (Hp : String.prefix needle hay = true)
        by (apply prefix_spec; exists post; exact E).
      destruct hay; [rewrite contains_nil | rewrite contains_cons];
        rewrite Hp; reflexivity.
    + destruct hay as [|b hay]; [discriminate E|].
      inversion E; subst. rewrite contains_cons. apply orb_true_iff. right.
      apply IH. reflexivity.
Qed.

Lemma contains_false (needle hay : string) :
  ~ occurs_in needle hay -> contains needle hay = false.
Proof.
  intros H. destruct (contains needle hay) eqn:E; [|reflexivity].
  apply contains_spec in E. contradiction.
Qed.

(** X2.  How [run_model] adapts its request.  A model name in which
    ["lucataco/ace-step"] occurs gets the prompt both as tags and as lyrics,
    and the pinned revision unless the name has a [":"]; any other name in
    which ["musicgen"] occurs gets the fixed generation parameters and the
    pinned musicgen revision, whatever revision the name carries; every
    other name is sent as it is with the prompt under ["prompt"]. *)
Theorem adapt_by_model_family (model prompt : string) :
  (occurs_in "lucataco/ace-step" model ->
   fst (adapt model prompt) = [("tags", prompt); ("lyrics", prompt)] /\
   (occurs_in ":" model -> snd (adapt model prompt) = model) /\
   (~ occurs_in ":" model ->
    snd (adapt model prompt) =
    "lucataco/ace-step:280fc4f9ee507577f880a167f639c02622421d8fecf492454320311217b688f1")) /\
  (~ occurs_in "lucataco/ace-step" model -> occurs_in "musicgen" model ->
   adapt model prompt =
   ([("prompt", prompt); ("model_version", "stereo-large");
     ("output_format", "mp3"); ("normalization_strategy", "peak")],
    "meta/musicgen:671ac645ce5e552cc63a54a2bbff63fcf798043055d2dac5fc9e36a837eedcfb")) /\
  (~ occurs_in "lucataco/ace-step" model -> ~ occurs_in "musicgen" model ->
   adapt model prompt = ([("prompt", prompt)], model)).
Proof.
  unfold adapt. repeat split.
  - apply contains_spec in H. rewrite H. reflexivity.
  - intros Hc. apply contains_spec in H, Hc. rewrite H, Hc. reflexivity.
  - intros Hc. apply contains_spec in H. apply contains_false in Hc.
    rewrite H, Hc. reflexivity.
  - intros Ha Hm. apply contains_false in Ha. apply contains_spec in Hm.
    rewrite Ha, Hm, orb_true_r. reflexivity.
  - intros Ha Hm. apply contains_false in Ha.
    assert (Hm' : contains "meta/musicgen" model = false).
    { apply contains_false. intros (pre & post & E). apply Hm.
      exists (pre ++ "meta/")%string, post. rewrite E.
      rewrite string_append_assoc. reflexivity. }
    apply contains_false in Hm. rewrite Ha, Hm, Hm'. reflexivity.
Qed.

Lemma adapt_by_model_family_witness :
  adapt "meta/musicgen:0123abcd" "Jazz trio" =
  ([("prompt", "Jazz trio"); ("model_version", "stereo-large");
    ("output_format", "mp3"); ("normalization_strategy", "peak")],
   "meta/musicgen:671ac645ce5e552cc63a54a2bbff63fcf798043055d2dac5fc9e36a837eedcfb").
Proof.
  apply (proj1 (proj2 (adapt_by_model_family "meta/musicgen:0123abcd" "Jazz trio"))).
  - intros H. apply contains_spec in H. discriminate H.
  - exists "meta/", ":0123abcd". reflexivity.
Defined.

Section WithPlatform.
Context {P : Platform}.

Lemma loop_events_of_run (backoff : float) (mv : string)
  (input : list (string * string)) (retries : Z) (n : nat) :
  forall a l w,
    1 <= a -> a + Z.of_nat n - 1 <= retries ->
    Forall (event_of_run backoff mv input retries)
      (snd (attempt_loop n a retries backoff mv input l w)).
Proof.
  induction n as [|n IH]; intros a l w Ha Hn; simpl.
  - constructor.
  - assert (Hrun : event_of_run backoff mv input retries (EvReplicateRun mv input))
      by (split; reflexivity).
    destruct (try_body mv input w) as [[urls| |e] w1].
    + cbn [snd]. constructor; [exact Hrun | constructor].
    + specialize (IH (a + 1) l w1 ltac:(lia) ltac:(lia)).
      destruct (attempt_loop n (a + 1) retries backoff mv input l w1) as [[res w2] evs].
      cbn [snd] in *. constructor; assumption.
    + assert (Hwarn : event_of_run backoff mv input retries (EvWarning a retries e))
        by (simpl; split; [lia | reflexivity]).
      destruct (is_Exception e);
        [|cbn [snd]; constructor; [exact Hrun | constructor]].
      destruct (time_sleep (backoff * PyFloat.of_Z a)%float w1) as [[[]|e'] w2].
      * specialize (IH (a + 1) (Some e) w2 ltac:(lia) ltac:(lia)).
        destruct (attempt_loop n (a + 1) retries backoff mv input (Some e) w2)
          as [[res w3] evs].
        cbn [snd] in *. constructor; [exact Hrun|].
        constructor; [exact Hwarn|]. constructor; [|exact IH].
        exists a. split; [lia | reflexivity].
      * cbn [snd]. constructor; [exact Hrun|].
        constructor; [exact Hwarn | constructor].
Qed.

(** X3.  Every event of one [run_model] call belongs to that call: each
    remote call carries the adapted model reference and input, each warning
    is numbered by an attempt between 1 and [retries], and each sleep lasts
    [backoff] times such an attempt. *)
Theorem run_model_events_are_its_own (model prompt : string) (retries : Z)
  (backoff : float) (w : world) :
  Forall (event_of_run backoff (snd (adapt model prompt))
            (fst (adapt model prompt)) retries)
    (snd (run_model model prompt retries backoff w)).
Proof.
  unfold run_model. destruct (adapt model prompt) as [input mv]. cbn [fst snd].
  destruct (Z.le_gt_cases retries 0) as [Hle|Hgt].
  - replace (Z.to_nat retries) with O by lia. constructor.
  - apply loop_events_of_run; lia.
Qed.

(** X4.  When every one of the [retries] attempts of [run_model] fails,
    by an exception that [except Exception] catches and that is followed by
    a sleep the clock accepts, or without locator and without exception,
    all [retries] calls are made and the error raised is the exception of
    the last attempt that ended in one, if that exception is true, also when
    later attempts ended without exception.  The [RuntimeError] about no
    usable URL is raised when no attempt ended in an exception, or when the
    last such exception is false. *)
Theorem last_exception_survives_soft_fails (model prompt : string) (retries : Z)
  (backoff : float) (w w' : world) (os : list (option exn)) :
  List.length os = Z.to_nat retries ->
  attempts_fail backoff (snd (adapt model prompt))
    (fst (adapt model prompt)) 1 w os w' ->
  fst (run_model model prompt retries backoff w) =
    (Raise (match last_caught None os with
            | Some e => if truth e then e else no_usable_url
            | None => no_usable_url
            end), w') /\
  runs (snd (run_model model prompt retries backoff w)) = Z.to_nat retries.
Proof.
  unfold run_model. destruct (adapt model prompt) as [input mv]. cbn [fst snd].
  intros Hlen Hall. rewrite <- Hlen.
  rewrite (RunModelFacts.loop_all_fail backoff mv input retries os 1 None w w' Hall).
  cbn [fst snd]. split; [reflexivity | apply RunModelFacts.runs_failure_trace].
Qed.

Lemma loop_success (backoff : float) (mv : string)
  (input : list (string * string)) (retries : Z) (n : nat) :
  forall a l w urls w' evs,
    attempt_loop n a retries backoff mv input l w = (Ok urls, w', evs) ->
    exists pre, evs = pre ++ [EvReplicateRun mv input].
Proof.
  induction n as [|n IH]; intros a l w urls w' evs; simpl.
  - discriminate.
  - destruct (try_body mv input w) as [[us| |e] w1].
    + intros H. inversion H; subst. exists []. reflexivity.
    + destruct (attempt_loop n (a + 1) retries backoff mv input l w1)
        as [[res w2] evs2] eqn:E.
      intros H. inversion H; subst.
      destruct (IH _ _ _ _ _ _ E) as (pre & ->).
      exists (EvReplicateRun mv input :: pre). reflexivity.
    + destruct (is_Exception e); [|discriminate].
      destruct (time_sleep (backoff * PyFloat.of_Z a)%float w1) as [[[]|e'] w2];
        [|discriminate].
      destruct (attempt_loop n (a + 1) retries backoff mv input (Some e) w2)
        as [[res w3] evs3] eqn:E.
      intros H. inversion H; subst.
      destruct (IH _ _ _ _ _ _ E) as (pre & ->).
      exists (EvReplicateRun mv input :: EvWarning a retries e ::
              EvSleep (backoff * PyFloat.of_Z a)%float :: pre).
      reflexivity.
Qed.

(** X5.  With [retries <= 0], [run_model] raises the [RuntimeError] about no
    usable URL without calling the service.  Whenever it returns a list, the
    last thing it did was a call to the service: nothing is logged and no
    sleep is taken after the answer that is returned. *)
Theorem returns_right_after_the_answer (model prompt : string) (retries : Z)
  (backoff : float) (w : world) :
  (retries <= 0 ->
   run_model model prompt retries backoff w = (Raise no_usable_url, w, [])) /\
  (forall urls w' evs,
     run_model model prompt retries backoff w = (Ok urls, w', evs) ->
     exists pre,
       evs = pre ++ [EvReplicateRun (snd (adapt model prompt))
                       (fst (adapt model prompt))]).
Proof.
  unfold run_model. destruct (adapt model prompt) as [input mv]. cbn [fst snd].
  split.
  - intros Hle. replace (Z.to_nat retries) with O by lia. reflexivity.
  - intros urls w' evs H. apply (loop_success _ _ _ _ _ _ _ _ _ _ _ H).
Qed.

End WithPlatform.

Lemma last_exception_survives_soft_fails_witness :
  fst (fst (run_model (P := Demo.platform) "some/model" "Jazz trio" 3 2%float
              (Demo.scripted [Raise timeout_error; Ok PNone; Ok (PDict [])]))) =
  Raise timeout_error.
Proof.
  refine (f_equal fst
            (proj1 (last_exception_survives_soft_fails (P := Demo.platform)
               "some/model" "Jazz trio" 3 2%float
               (Demo.scripted [Raise timeout_error; Ok PNone; Ok (PDict [])])
               (Demo.advance 2%float (Demo.scripted []))
               [Some timeout_error; None; None] eq_refl _))).
  simpl. eexists. eexists. split; [reflexivity|]. split; [reflexivity|].
  split; [reflexivity|].
  eexists. split; [reflexivity|]. eexists. split; reflexivity.
Defined.

Lemma returns_right_after_the_answer_witness :
  exists pre,
    [ EvReplicateRun "some/model" [("prompt", "Jazz trio")];
      EvWarning 1 3 timeout_error; EvSleep 2%float;
      EvReplicateRun "some/model" [("prompt", "Jazz trio")] ] =
    pre ++ [EvReplicateRun "some/model" [("prompt", "Jazz trio")]].
Proof.
  apply (proj2 (returns_right_after_the_answer (P := Demo.platform)
           "some/model" "Jazz trio" 3 2%float
           (Demo.scripted [Raise timeout_error; Ok (PStr "https://cdn/x.mp3")]))
         ["https://cdn/x.mp3"] (Demo.advance 2%float (Demo.scripted []))).
  reflexivity.
Defined.

End RunModelMore.

(** ** More about [audio_utils] *)

Module AudioMore.
Import AudioUtils AudioSpec FeatureSpec.

Section WithPlatform.
Context {P : Platform} {R : PyRandom}.

(** X6.  Whatever path the computation takes, a feature vector that is
    returned has the six fields, in the same order; on an empty buffer it is
    the all-zero vector, and no descriptor is asked for. *)
Theorem feature_vector_has_six_fields (wav_path : string) (w : world) :
  (forall fs, compute_audio_features wav_path w = Ok fs ->
              map fst fs = feature_keys) /\
  (librosa_load wav_path 22050 w = Ok [] ->
   compute_audio_features wav_path w =
   Ok (map (fun key => (key, 0%float)) feature_keys)).
Proof.
  split.
  - intros fs H.
    destruct (AudioFacts.features_have_six_keys _ _ _ H)
      as (d & t & r & c & z & m & ->).
    reflexivity.
  - intros H. unfold compute_audio_features, load_audio_for_features.
    rewrite H. reflexivity.
Qed.

Lemma random_start_in_range (g : rng) (length_ms snippet_ms : Z) :
  exists s, random_start g length_ms snippet_ms = Ok s /\
            0 <= s <= Z.max 0 (length_ms - snippet_ms).
Proof.
  unfold random_start.
  destruct (0 <? Z.max 0 (length_ms - snippet_ms)) eqn:E.
  - apply Z.ltb_lt in E. unfold PyRandomOps.randint.
    destruct (Z.max 0 (length_ms - snippet_ms) <? 0) eqn:E2;
      [apply Z.ltb_lt in E2; lia|].
    pose proof (rng_below_range g (Z.max 0 (length_ms - snippet_ms) - 0 + 1)
                  ltac:(lia)) as Hr.
    destruct (rng_below g (Z.max 0 (length_ms - snippet_ms) - 0 + 1)) as [i g'].
    cbn [fst] in *. exists (0 + i). split; [reflexivity | lia].
  - exists 0. split; [reflexivity | lia].
Qed.

Lemma slice_length {A : Type} (l : list A) (s ms : Z) :
  0 <= s -> 0 <= ms -> s + ms <= len l -> len (slice l s (s + ms)) = ms.
Proof.
  intros Hs Hms Hle.
  assert (Hpos : forall v, 0 <= v <= len l ->
            py_index (len l) (parse_position (len l) (Z.min v (len l))) = v).
  { intros v Hv. unfold parse_position, py_index. rewrite Z.min_l by lia.
    destruct (v <? 0) eqn:E; [apply Z.ltb_lt in E; lia|].
    rewrite E. lia. }
  unfold slice, py_slice. rewrite !Hpos by lia. unfold len in *.
  rewrite length_firstn, length_skipn. lia.
Qed.

Lemma select_start_cases (method source_wav : string) (length_ms snippet_ms : Z)
  (g : rng) (w : world) :
  method <> "highest_rms" ->
  select_start method source_wav length_ms snippet_ms g w =
  random_start g length_ms snippet_ms.
Proof.
  intros Hm. unfold select_start.
  destruct (String.eqb method "random"); [reflexivity|].
  destruct (String.eqb_spec method "highest_rms"); [contradiction | reflexivity].
Qed.

(** X8.  Whatever the method, a start offset that is selected lies in
    [[0, max(0, length - target_ms)]], and the window cut there from audio
    at least as long as the target has exactly [target_ms] milliseconds.
    Every method but [highest_rms] always selects one. *)
Theorem start_offset_stays_in_range (method source_wav : string)
  (audio : list frame) (snippet_ms : Z) (g : rng) (w : world) :
  (method <> "highest_rms" ->
   exists s, select_start method source_wav (len audio) snippet_ms g w = Ok s) /\
  (forall s,
     select_start method source_wav (len audio) snippet_ms g w = Ok s ->
     0 <= s <= Z.max 0 (len audio - snippet_ms) /\
     (0 <= snippet_ms <= len audio ->
      len (slice audio s (s + snippet_ms)) = snippet_ms)).
Proof.
  assert (Hrange : forall s,
            select_start method source_wav (len audio) snippet_ms g w = Ok s ->
            0 <= s <= Z.max 0 (len audio - snippet_ms)).
  { intros s H. destruct (String.eqb_spec method "highest_rms") as [->|Hm].
    - unfold select_start in H. cbn [String.eqb Ascii.eqb Bool.eqb] in H.
      destruct (_find_highest_rms_window_ms source_wav snippet_ms 22050 w);
        cbn [bind] in H; [|discriminate].
      inversion H. apply AudioFacts.clamp_start_range.
    - rewrite (select_start_cases _ _ _ _ _ _ Hm) in H.
      destruct (random_start_in_range g (len audio) snippet_ms) as (s' & E & Hs).
      rewrite E in H. inversion H; subst. exact Hs. }
  split.
  - intros Hm. rewrite (select_start_cases _ _ _ _ _ _ Hm).
    destruct (random_start_in_range g (len audio) snippet_ms) as (s & E & _).
    exists s. exact E.
  - intros s H. split; [apply Hrange, H|].
    intros Hms. apply slice_length; [apply Hrange in H; lia | lia |].
    apply Hrange in H. lia.
Qed.

(** X9.  A method name that is neither ["random"] nor ["highest_rms"]
    selects and exports exactly what ["random"] does with the same seed; only
    the method reported back is the name that was asked for. *)
Theorem unknown_method_is_random (source_wav target_wav : string)
  (snippet_ms fade_ms : Z) (method : string) (sd : option Z) (w : world) :
  method <> "random" -> method <> "highest_rms" ->
  make_snippet source_wav target_wav snippet_ms fade_ms method sd w =
  match make_snippet source_wav target_wav snippet_ms fade_ms "random" sd w with
  | (Ok out, w') =>
      (Ok {| so_return := (target_wav, method,
                           (PyFloat.of_Z snippet_ms / 1000)%float);
             so_start_ms := so_start_ms out;
             so_snippet := so_snippet out |}, w')
  | (Raise e, w') => (Raise e, w')
  end.
Proof.
  intros Hr Hh. unfold make_snippet.
  destruct (from_file source_wav w) as [audio0|e]; [|reflexivity].
  destruct (loop_to_length audio0 snippet_ms) as [audio|e]; cbn [bind];
    [|reflexivity].
  rewrite (select_start_cases method _ _ _ _ _ Hh).
  rewrite (select_start_cases "random" _ _ _ _ _ ltac:(discriminate)).
  destruct (random_start _ (len audio) snippet_ms) as [s|e]; cbn [bind];
    [|reflexivity].
  destruct (fade_in fade_ms _) as [faded|e]; cbn [bind]; [|reflexivity].
  destruct (fade_out fade_ms faded) as [snippet|e]; cbn [bind]; [|reflexivity].
  destruct (ensure_dir (dirname target_wav) w) as [[[]|e] w1]; [|reflexivity].
  destruct (export_wav target_wav _ w1) as [[[]|e] w2]; reflexivity.
Qed.

(** X10.  When decoding, looping, selecting the start or one of the two
    fades fails, [make_snippet] raises that error and leaves the world as it
    found it: no directory is made and nothing is exported. *)
Theorem failed_selection_writes_nothing (source_wav target_wav : string)
  (snippet_ms fade_ms : Z) (method : string) (sd : option Z) (w : world)
  (e : exn) :
  (from_file source_wav w = Raise e \/
   exists audio0,
     from_file source_wav w = Ok audio0 /\
     (loop_to_length audio0 snippet_ms = Raise e \/
      exists audio,
        loop_to_length audio0 snippet_ms = Ok audio /\
        (select_start method source_wav (len audio) snippet_ms
           (match sd with Some a => rng_seed a | None => rng_entropy end) w =
         Raise e \/
         exists s,
           select_start method source_wav (len audio) snippet_ms
             (match sd with Some a => rng_seed a | None => rng_entropy end) w =
           Ok s /\
           (fade_in fade_ms (slice audio s (s + snippet_ms)) = Raise e \/
            exists faded,
              fade_in fade_ms (slice audio s (s + snippet_ms)) = Ok faded /\
              fade_out fade_ms faded = Raise e)))) ->
  make_snippet source_wav target_wav snippet_ms fade_ms method sd w = (Raise e, w).
Proof.
  unfold make_snippet.
  intros [-> | (audio0 & -> & [-> | (audio & -> & H)])]; try reflexivity.
  cbn [bind].
  destruct H as [-> | (s & -> & H)]; [reflexivity|]. cbn [bind].
  destruct H as [-> | (faded & -> & H)]; [reflexivity|]. cbn [bind].
  rewrite H. reflexivity.
Qed.

Lemma scan_prefix_flat (y : list sample) (ws hop : Z) (n : nat) :
  PyFloat.nonneg (rms_at y ws 0) = true ->
  (forall i, (0 < i <= n)%nat ->
     PyFloat.gtb (rms_at y ws (nth_start hop i)) (rms_at y ws 0) = false) ->
  scan_prefix y ws hop (S n) = (0, rms_at y ws 0).
Proof.
  intros H0 Hflat. induction n as [|n IH].
  - rewrite AudioFacts.scan_prefix_S. unfold scan_prefix, scan, scan_step.
    cbn [map seq fold_left snd]. change (nth_start hop 0) with 0.
    rewrite (FloatOrder.nonneg_above_minus_one _ H0). reflexivity.
  - rewrite AudioFacts.scan_prefix_S, IH by (intros i Hi; apply Hflat; lia).
    unfold scan_step. cbn [snd]. rewrite Hflat by lia. reflexivity.
Qed.

Lemma ms_of_first_sample : ms_of_samples 22050 0 = Ok 0.
Proof. vm_compute. reflexivity. Qed.

(** X11.  When no scanned window is strictly louder than the first one (a
    silent or evenly loud track), the [highest_rms] method selects start
    offset 0. *)
Theorem no_louder_window_selects_zero (source_wav : string)
  (snippet_ms length_ms : Z) (g : rng) (w : world) (y : list sample) (ws : Z) :
  librosa_load source_wav 22050 w = Ok y ->
  window_samples_of 22050 snippet_ms = Ok ws ->
  0 < ws < len y ->
  PyFloat.nonneg (rms_at y ws 0) = true ->
  (forall i, 0 < i -> i * 1102 <= len y - ws ->
     PyFloat.gtb (rms_at y ws (i * 1102)) (rms_at y ws 0) = false) ->
  select_start "highest_rms" source_wav length_ms snippet_ms g w = Ok 0.
Proof.
  intros Hy Hws Hw H0 Hflat.
  pose proof (AudioFacts.find_highest_scans source_wav snippet_ms 22050 w y ws 1102
                Hy Hws AudioFacts.hop_at_22050 ltac:(lia) Hw) as Hfind.
  rewrite (scan_prefix_flat y ws 1102 _ H0) in Hfind.
  - cbn [fst] in Hfind. rewrite ms_of_first_sample in Hfind.
    unfold select_start. cbn [String.eqb Ascii.eqb Bool.eqb]. rewrite Hfind.
    cbn [bind]. f_equal. unfold clamp_start. lia.
  - intros i Hi. rewrite <- (Nat2Z.id i), AudioFacts.nth_start_of_index by lia.
    apply Hflat; [lia|].
    apply (AudioFacts.index_in_scan 1102 (len y - ws) (Z.of_nat i)); [lia | lia | lia |].
    rewrite Nat2Z.id. lia.
Qed.

End WithPlatform.

Lemma feature_vector_has_six_fields_witness :
  compute_audio_features (P := Demo.platform) Demo.song_01
    (Demo.with_file Demo.song_01 [] []) =
  Ok (map (fun key => (key, 0%float)) feature_keys).
Proof.
  apply (proj2 (feature_vector_has_six_fields (P := Demo.platform) Demo.song_01
                  (Demo.with_file Demo.song_01 [] []))).
  reflexivity.
Defined.

Lemma start_offset_stays_in_range_witness :
  exists s,
    select_start (P := Demo.platform) (R := lcg_random) "random" Demo.song_01
      (len (Demo.frames_of 150)) 100 42
      (Demo.with_file Demo.song_01 (Demo.frames_of 150) Demo.short_source_pcm) = Ok s.
Proof.
  apply (proj1 (start_offset_stays_in_range (P := Demo.platform) (R := lcg_random)
                  "random" Demo.song_01 (Demo.frames_of 150) 100 42
                  (Demo.with_file Demo.song_01 (Demo.frames_of 150)
                     Demo.short_source_pcm))).
  discriminate.
Defined.

Lemma unknown_method_is_random_witness :
  make_snippet (P := Demo.platform) (R := lcg_random) Demo.song_01
    "outputs/snippets/song_01_snippet.wav" 100 500 "loudest" (Some 42)
    (Demo.with_file Demo.song_01 (Demo.frames_of 150) Demo.short_source_pcm) =
  match make_snippet (P := Demo.platform) (R := lcg_random) Demo.song_01
          "outputs/snippets/song_01_snippet.wav" 100 500 "random" (Some 42)
          (Demo.with_file Demo.song_01 (Demo.frames_of 150) Demo.short_source_pcm)
  with
  | (Ok out, w') =>
      (Ok {| so_return := ("outputs/snippets/song_01_snippet.wav", "loudest",
                           (PyFloat.of_Z 100 / 1000)%float);
             so_start_ms := so_start_ms out;
             so_snippet := so_snippet out |}, w')
  | (Raise e, w') => (Raise e, w')
  end.
Proof.
  apply (unknown_method_is_random (P := Demo.platform) (R := lcg_random));
    discriminate.
Defined.

Lemma failed_selection_writes_nothing_witness :
  make_snippet (P := Demo.platform) (R := lcg_random) "outputs/audio/missing.wav"
    "outputs/snippets/song_01_snippet.wav" 100 500 "random" (Some 42)
    (Demo.scripted []) =
  (Raise (Exn "FileNotFoundError" "outputs/audio/missing.wav"), Demo.scripted []).
Proof.
  apply (failed_selection_writes_nothing (P := Demo.platform) (R := lcg_random)).
  left. reflexivity.
Defined.

Lemma no_louder_window_selects_zero_witness :
  select_start (P := Demo.platform) (R := lcg_random) "highest_rms" Demo.song_01
    227 100 0 (Demo.with_file Demo.song_01 (Demo.frames_of 227) silence_pcm) = Ok 0.
Proof.
  apply (no_louder_window_selects_zero (P := Demo.platform) (R := lcg_random)
           Demo.song_01 100 227 0
           (Demo.with_file Demo.song_01 (Demo.frames_of 227) silence_pcm)
           silence_pcm 2205).
  - reflexivity.
  - vm_compute. reflexivity.
  - change (0 < 2205 < 5000). lia.
  - vm_compute. reflexivity.
  - intros i Hi Hle. change (i * 1102 <= 5000 - 2205) in Hle.
    assert (Hcase : i = 1 \/ i = 2) by lia.
    destruct Hcase as [-> | ->]; vm_compute; reflexivity.
Defined.

End AudioMore.

(** ** More about the orchestrator *)

Module OrchestratorMore.
Import Pipeline NamesSpec LedgerSpec OrchestratorSpec.

(** What the model call, the loop over one recorded track and the loop over
    one track of a silent service return in the reference worlds. *)
Definition two_locators_run : result (list string) * Demo.state * list event :=
  Eval vm_compute in
    run_model (P := Demo.platform) "lucataco/ace-step"
      "Melancholic acoustic guitar ballad" 3 2%float
      (snd (perf_counter (Platform := Demo.platform) two_locators_world)).

Definition rerun_tracks : result (list row) * Demo.state * list event :=
  Eval vm_compute in
    tracks (P := Demo.platform) (R := lcg_random) (args_for 1)
      (Some earlier_ledger) None 0 ["Melancholic acoustic guitar ballad"]
      rerun_world.

Definition one_prompt : result (list string) :=
  Eval vm_compute in
    fst (Prompts.sample_prompts (R := lcg_random) 1 42 0).

Definition silent_tracks : result (list row) * Demo.state * list event :=
  Eval vm_compute in
    tracks (P := Demo.platform) (R := lcg_random) (args_for 1) None None 0
      (match one_prompt with Ok ps => ps | Raise _ => [] end)
      (Demo.scripted []).

Lemma to_int_proper (n : Z) :
  Z.to_int n <> Decimal.Pos Decimal.Nil /\ Z.to_int n <> Decimal.Neg Decimal.Nil.
Proof.
  destruct n as [|p|p]; simpl; split; try discriminate;
    intros H; inversion H as [Hp];
    exact (DecimalPos.Unsigned.to_uint_nonnil p Hp).
Qed.

Lemma read_int_unpadded (n : Z) :
  read_int (NilZero.string_of_int (Z.to_int n)) = Some n.
Proof.
  unfold read_int. destruct (to_int_proper n) as [Hp Hn].
  rewrite (NilZero.isi _ Hp Hn). simpl. rewrite DecimalZ.of_to. reflexivity.
Qed.

Lemma string_of_uint_nonempty (d : Decimal.uint) :
  NilZero.string_of_uint d <> "".
Proof. destruct d; discriminate. Qed.

Lemma read_int_padded (n : Z) :
  (String.length (NilZero.string_of_int (Z.to_int n)) < 2)%nat ->
  read_int ("0" ++ NilZero.string_of_int (Z.to_int n)) = Some n.
Proof.
  intros Hlen. destruct (to_int_proper n) as [Hp _].
  pose proof (DecimalZ.of_to n) as Hn.
  destruct (Z.to_int n) as [d|d].
  - assert (Hd : d <> Decimal.Nil) by congruence.
    unfold read_int, NilZero.int_of_string. cbn [append Ascii.eqb Bool.eqb].
    cbn [NilZero.string_of_int]. unfold NilZero.uint_of_string.
    cbn [NilEmpty.uint_of_string].
    replace (NilZero.string_of_uint d) with (NilEmpty.string_of_uint d)
      by (destruct d; [congruence | reflexivity ..]).
    rewrite NilEmpty.usu. cbn [uint_of_char option_map].
    change (Z.of_int (Decimal.Pos (Decimal.D0 d))) with (Z.of_int (Decimal.Pos d)).
    rewrite Hn. reflexivity.
  - cbn [NilZero.string_of_int String.length] in Hlen.
    pose proof (string_of_uint_nonempty d) as Hne.
    destruct (NilZero.string_of_uint d); [congruence | simpl in Hlen; lia].
Qed.

Lemma read_fmt_02d (n : Z) : read_int (fmt_02d n) = Some n.
Proof.
  unfold fmt_02d.
  destruct (String.length (NilZero.string_of_int (Z.to_int n)) <? 2)%nat eqn:E.
  - apply read_int_padded. apply Nat.ltb_lt. exact E.
  - apply read_int_unpadded.
Qed.

Lemma string_length_append (a b : string) :
  String.length (a ++ b) = (String.length a + String.length b)%nat.
Proof. induction a as [|c a IH]; simpl; [reflexivity | rewrite IH; reflexivity]. Qed.

Lemma string_append_cancel_r (x y t : string) :
  (x ++ t = y ++ t)%string -> x = y.
Proof.
  revert y. induction x as [|c x IH]; intros [|d y] H.
  - reflexivity.
  - apply (f_equal String.length) in H. simpl in H.
    rewrite string_length_append in H. lia.
  - apply (f_equal String.length) in H. simpl in H.
    rewrite string_length_append in H. lia.
  - simpl in H. inversion H. f_equal. apply IH. assumption.
Qed.

Lemma fmt_02d_inj (a b : Z) : fmt_02d a = fmt_02d b -> a = b.
Proof.
  intros H. pose proof (read_fmt_02d a) as Ha. rewrite H, read_fmt_02d in Ha.
  congruence.
Qed.

(** X12.  The two-digit track number in a file name reads back as the
    number it was made from, so distinct track indices have distinct audio
    paths and distinct snippet paths, and no audio path is a snippet path. *)
Theorem paths_identify_tracks :
  (forall n, read_int (fmt_02d n) = Some n) /\
  (forall i j, audio_path_of i = audio_path_of j -> i = j) /\
  (forall i j, snippet_path_of i = snippet_path_of j -> i = j) /\
  (forall i j, audio_path_of i <> snippet_path_of j).
Proof.
  split; [exact read_fmt_02d|]. repeat split.
  - intros i j H. unfold audio_path_of, audio_dir, path_join in H. simpl in H.
    inversion H as [H']. apply string_append_cancel_r, fmt_02d_inj in H'. lia.
  - intros i j H. unfold snippet_path_of, snippet_dir, path_join in H. simpl in H.
    inversion H as [H']. apply string_append_cancel_r, fmt_02d_inj in H'. lia.
  - intros i j H.
    unfold audio_path_of, snippet_path_of, audio_dir, snippet_dir, path_join in H.
    simpl in H. discriminate H.
Qed.

Lemma paths_identify_tracks_witness : 3 = 3.
Proof.
  apply (proj1 (proj2 paths_identify_tracks) 3 3). reflexivity.
Defined.

Section WithPlatform.
Context {P : Platform} {R : PyRandom}.

(** X13.  A loaded ledger that lacks a column stops the run at the track
    that needs it, before any model call: without ["audio_path"] the first
    track raises [AttributeError]; with the track's path present but without
    ["generation_time_seconds"] the track raises [KeyError]. *)
Theorem ledger_without_columns_aborts (args : Args) (mv : option string)
  (idx : Z) (prompt : string) (w : world) (df : DataFrame) :
  (df_get df "audio_path" = None ->
   track args (Some df) mv idx prompt w =
   (Raise (AttributeError "'bool' object has no attribute 'any'"),
    snd (uuid4 w), [])) /\
  (forall paths,
     df_get df "audio_path" = Some paths ->
     existsb (cell_is (audio_path_of idx)) paths = true ->
     df_get df "generation_time_seconds" = None ->
     track args (Some df) mv idx prompt w =
     (Raise (KeyError "generation_time_seconds"), snd (uuid4 w), [])).
Proof.
  split.
  - intros H. unfold track, mbind, call, read, already_generated.
    destruct (uuid4 w) as [id w1]. rewrite H. reflexivity.
  - intros paths Hp Hhit Ht.
    unfold track, mbind, call, read, already_generated.
    destruct (uuid4 w) as [id w1]. rewrite Hp, Hhit. cbv beta iota.
    unfold recorded_gen_time. rewrite Hp, Ht. reflexivity.
Qed.

Lemma load_existing_none (args : Args) (w0 : world) :
  force args = true \/ path_exists csv_path w0 = false \/
  (exists e, read_csv csv_path w0 = Raise e /\ is_Exception e = true) ->
  load_existing args w0 = Ok None.
Proof.
  unfold load_existing. intros [H|[H|(e & H & He)]].
  - rewrite H. destruct (path_exists csv_path w0); reflexivity.
  - rewrite H. reflexivity.
  - rewrite H, He. destruct (path_exists csv_path w0 && negb (force args)); reflexivity.
Qed.

(** X14.  A run that is forced, or finds no ledger file, or meets an
    exception when it reads the one it finds (the exception is swallowed),
    starts from no ledger, and each of its tracks generates: the track's
    trace begins with the trace of [generate], and when generation fails the
    track fails with that error, whether or not the audio file is already
    there.  What reading the ledger raises and is no [Exception] is raised
    by the run. *)
Theorem run_without_ledger_regenerates (args : Args) (mv : option string)
  (idx : Z) (prompt : string) (w0 w : world) :
  (force args = true \/ path_exists csv_path w0 = false \/
   (exists e, read_csv csv_path w0 = Raise e /\ is_Exception e = true) ->
   load_existing args w0 = Ok None) /\
  (forall e, force args = false -> path_exists csv_path w0 = true ->
             read_csv csv_path w0 = Raise e -> is_Exception e = false ->
             load_existing args w0 = Raise e) /\
  (exists rest,
     snd (track args None mv idx prompt w) =
     snd (generate args prompt (audio_path_of idx) (snd (uuid4 w))) ++ rest) /\
  (forall e,
     fst (fst (generate args prompt (audio_path_of idx) (snd (uuid4 w)))) =
       Raise e ->
     fst (fst (track args None mv idx prompt w)) = Raise e).
Proof.
  split; [apply load_existing_none|]. split.
  { intros e Hf He Hr Hx. unfold load_existing. rewrite Hf, He, Hr, Hx. reflexivity. }
  unfold track, mbind, call, read, already_generated.
  destruct (uuid4 w) as [id w1]. cbn [snd].
  destruct (generate args prompt (audio_path_of idx) w1) as [[[t|e] w2] ev2].
  - split; [|intros e He; discriminate He].
    destruct (AudioUtils.compute_audio_features (audio_path_of idx) w2) as [fs|e].
    + destruct (AudioUtils.make_snippet (audio_path_of idx) (snippet_path_of idx)
                  (snippet_seconds args * 1000) 500 (snippet_method args)
                  (Some (seed args + idx)) w2) as [[snip|e] w3].
      * destruct (AudioUtils.so_return snip) as [[spath smethod] slen].
        eexists. cbn. reflexivity.
      * eexists. cbn. reflexivity.
    + eexists. cbn. reflexivity.
  - split; [exists []; cbn; rewrite app_nil_r; reflexivity|].
    intros e' He. cbn in *. inversion He. reflexivity.
Qed.

(** X15.  When the model returns several locators, [generate] downloads the
    first one only, and the time it reports is the time around the model
    call: the download is not part of it. *)
Theorem generate_downloads_first_url (args : Args) (prompt audio_path : string)
  (w w1 : world) (url : string) (rest : list string) (evs : list event) :
  run_model (model args) prompt 3 2%float (snd (perf_counter w)) =
    (Ok (url :: rest), w1, evs) ->
  generate args prompt audio_path w =
  (match fst (AudioUtils.download_audio_to_wav url audio_path
                (snd (perf_counter w1))) with
   | Ok _ => Ok (fst (perf_counter w1) - fst (perf_counter w))%float
   | Raise e => Raise e
   end,
   snd (AudioUtils.download_audio_to_wav url audio_path (snd (perf_counter w1))),
   evs).
Proof.
  intros Hrun. unfold generate, mbind, now, call, ret.
  destruct (perf_counter w) as [t0 w0]. cbn [snd fst] in *. rewrite Hrun.
  destruct (perf_counter w1) as [t1 w2]. cbn [snd fst].
  destruct (AudioUtils.download_audio_to_wav url audio_path w2) as [[p|e] w3];
    cbn [fst snd]; rewrite ?app_nil_r; reflexivity.
Qed.

Lemma mbind_ok {A B : Type} (m : M A) (k : A -> M B) (w w' : world)
  (b : B) (evs : list event) :
  mbind m k w = (Ok b, w', evs) ->
  exists a w1 ev1 ev2,
    m w = (Ok a, w1, ev1) /\ k a w1 = (Ok b, w', ev2) /\ evs = ev1 ++ ev2.
Proof.
  unfold mbind. destruct (m w) as [[[a|e] w1] ev1]; [|discriminate].
  destruct (k a w1) as [[r w2] ev2] eqn:Hk. intros H. inversion H; subst.
  exists a, w1, ev1, ev2. repeat split. exact Hk.
Qed.

Lemma track_row (args : Args) (existing : option DataFrame)
  (mv : option string) (idx : Z) (prompt : string) (w w' : world)
  (r : row) (evs : list event) :
  track args existing mv idx prompt w = (Ok r, w', evs) ->
  row_of_track args idx prompt r.
Proof.
  unfold track. intros H.
  apply mbind_ok in H. destruct H as (id & w1 & e1 & e1' & _ & H & _).
  apply mbind_ok in H. destruct H as (hit & w2 & e2 & e2' & _ & H & _).
  apply mbind_ok in H. destruct H as (t & w3 & e3 & e3' & _ & H & _).
  apply mbind_ok in H. destruct H as (fs & w4 & e4 & e4' & Hf & H & _).
  apply mbind_ok in H. destruct H as (snip & w5 & e5 & e5' & Hs & H & _).
  unfold read in Hf.
  destruct (AudioUtils.compute_audio_features (audio_path_of idx) w3)
    as [fs'|e] eqn:Hf'; [|discriminate Hf].
  inversion Hf; subst fs' w4.
  destruct (AudioFacts.features_have_six_keys _ _ _ Hf')
    as (d & tempo & rm & c & z & m & ->).
  unfold call in Hs.
  destruct (AudioUtils.make_snippet (audio_path_of idx) (snippet_path_of idx)
              (snippet_seconds args * 1000) 500 (snippet_method args)
              (Some (seed args + idx)) w3) as [[snip'|e] w4'] eqn:Hs';
    [|discriminate Hs].
  inversion Hs; subst snip' w4'.
  rewrite (OrchestratorFacts.make_snippet_returns _ _ _ _ _ _ _ _ _ Hs') in H.
  unfold ret in H. inversion H. repeat split.
Qed.

(** X16.  When the loop over the prompts comes to an end, it has produced
    one row per prompt, in the order of the prompts: the row at position [i]
    has the fifteen fields and carries the prompt at position [i], the model
    and snippet method of the run, and the audio and snippet paths of track
    [idx + i]. *)
Theorem rows_follow_the_prompts (args : Args) (existing : option DataFrame)
  (mv : option string) (prompts : list string) :
  forall (idx : Z) (w w' : world) (rows : list row) (evs : list event),
    tracks args existing mv idx prompts w = (Ok rows, w', evs) ->
    List.length rows = List.length prompts /\
    (forall i prompt,
       nth_error prompts i = Some prompt ->
       exists r, nth_error rows i = Some r /\
                 row_of_track args (idx + Z.of_nat i) prompt r).
Proof.
  induction prompts as [|p prompts IH]; intros idx w w' rows evs; simpl.
  - unfold ret. intros H. inversion H. split; [reflexivity|].
    intros [|i] prompt Hi; discriminate Hi.
  - unfold mbind.
    destruct (track args existing mv idx p w) as [[[r|e] w1] ev1] eqn:Ht;
      [|discriminate].
    destruct (tracks args existing mv (idx + 1) prompts w1)
      as [[[rs|e] w2] ev2] eqn:Hts; [|discriminate].
    unfold ret. intros H. inversion H; subst.
    destruct (IH _ _ _ _ _ Hts) as (Hlen & Hrows).
    split; [simpl; rewrite Hlen; reflexivity|].
    intros [|i] prompt Hi; simpl in Hi.
    + inversion Hi; subst. exists r. split; [reflexivity|].
      replace (idx + Z.of_nat 0) with idx by lia.
      apply (track_row _ _ _ _ _ _ _ _ _ Ht).
    + destruct (Hrows i prompt Hi) as (r' & Hr & Hrow).
      exists r'. split; [exact Hr|].
      replace (idx + Z.of_nat (S i)) with (idx + 1 + Z.of_nat i) by lia.
      exact Hrow.
Qed.

(** X17.  [main] fails before anything is generated in two cases.  Without
    a token (unset or empty) it raises at once and touches nothing.  With a
    negative number of tracks it raises the [ValueError] of [random.sample]
    after the two output directories are made: no ledger is read, the
    service is not called and no ledger is written. *)
Theorem main_fails_before_generation (args : Args) (g : rng) (w : world) :
  (getenv "REPLICATE_API_TOKEN" w = None \/
   getenv "REPLICATE_API_TOKEN" w = Some "" ->
   main args g w = (Raise no_token, w, [])) /\
  (forall tok w1 w2,
     getenv "REPLICATE_API_TOKEN" w = Some tok -> tok <> "" ->
     makedirs audio_dir w = (Ok tt, w1) ->
     makedirs snippet_dir w1 = (Ok tt, w2) ->
     num_tracks args < 0 ->
     main args g w =
     (Raise (ValueError "Sample larger than population or is negative"), w2, [])).
Proof.
  split.
  - intros [H|H]; unfold main; rewrite H; reflexivity.
  - intros tok w1 w2 Htok Hne Hd1 Hd2 Hn. unfold main. rewrite Htok.
    destruct tok as [|c tok]; [congruence|].
    unfold mbind, call, read, AudioUtils.ensure_dir. rewrite Hd1, Hd2.
    unfold Prompts.sample_prompts, PyRandomOps.sample.
    rewrite PromptsFacts.pool_length.
    destruct (num_tracks args <=? Z.of_nat 30) eqn:E; [|apply Z.leb_gt in E; lia].
    destruct (num_tracks args <? 0) eqn:E1; [|apply Z.ltb_ge in E1; lia].
    reflexivity.
Qed.

(** X18.  A run asked for zero tracks writes a ledger with no rows over
    whatever ledger was there, without calling the model. *)
Theorem zero_tracks_empties_ledger (args : Args) (g : rng)
  (w w1 w2 w3 w4 : world) (tok : string) (mv : option string)
  (loaded : option DataFrame) :
  getenv "REPLICATE_API_TOKEN" w = Some tok -> tok <> "" ->
  makedirs audio_dir w = (Ok tt, w1) ->
  makedirs snippet_dir w1 = (Ok tt, w2) ->
  load_existing args w2 = Ok loaded ->
  fst (capture_model_version args w2) = (Ok mv, w3) ->
  makedirs "outputs" w3 = (Ok tt, w4) ->
  num_tracks args = 0 ->
  main args g w = (fst (to_csv csv_path [] w4), snd (to_csv csv_path [] w4), []).
Proof.
  intros Htok Hne Hd1 Hd2 Hl Hc Hd3 Hn. unfold main. rewrite Htok.
  destruct tok as [|c tok]; [congruence|].
  unfold mbind, call, read, AudioUtils.ensure_dir. rewrite Hd1, Hd2, Hn, Hl.
  unfold Prompts.sample_prompts. rewrite PromptsFacts.pool_length.
  change (0 <=? Z.of_nat 30) with true. cbv iota.
  destruct (PromptsFacts.sample_in_range (rng_seed (seed args)) Prompts.PROMPT_POOL 0
              PromptsFacts.pool_NoDup) as (ps & Hps & Hlen & _);
    [rewrite PromptsFacts.pool_length; lia|].
  rewrite Hps. destruct ps; [|simpl in Hlen; lia].
  change (AudioUtils.dirname csv_path) with "outputs".
  destruct (capture_model_version args w2) as [[r w3'] ev3] eqn:Hcap.
  cbn [fst] in Hc. inversion Hc; subst r w3'.
  assert (ev3 = []) as ->.
  { unfold capture_model_version in Hcap.
    destruct (replicate_models_get (model args) w2) as [[v|e] w'];
      [|destruct (is_Exception e)]; inversion Hcap; reflexivity. }
  cbn [tracks ret]. rewrite Hd3.
  destruct (to_csv csv_path [] w4) as [r w5]. reflexivity.
Qed.

(** X19.  When a track fails, [main] raises that track's error and stops
    where the track stopped: the ledger file is not written, whatever rows
    earlier tracks have produced. *)
Theorem failed_track_leaves_ledger_unwritten (args : Args) (g : rng)
  (w w1 w2 w3 wf : world) (tok : string) (prompts : list string)
  (loaded : option DataFrame) (mv : option string) (e : exn)
  (evs : list event) :
  getenv "REPLICATE_API_TOKEN" w = Some tok -> tok <> "" ->
  makedirs audio_dir w = (Ok tt, w1) ->
  makedirs snippet_dir w1 = (Ok tt, w2) ->
  fst (Prompts.sample_prompts (num_tracks args) (seed args) g) = Ok prompts ->
  load_existing args w2 = Ok loaded ->
  fst (capture_model_version args w2) = (Ok mv, w3) ->
  tracks args loaded mv 0 prompts w3 = (Raise e, wf, evs) ->
  main args g w = (Raise e, wf, evs).
Proof.
  intros Htok Hne Hd1 Hd2 Hp Hl Hc Ht. unfold main. rewrite Htok.
  destruct tok as [|c tok]; [congruence|].
  unfold mbind, call, read, AudioUtils.ensure_dir. rewrite Hd1, Hd2, Hp, Hl.
  destruct (capture_model_version args w2) as [[r w3'] ev3] eqn:Hcap.
  cbn [fst] in Hc. inversion Hc; subst r w3'.
  assert (ev3 = []) as ->.
  { unfold capture_model_version in Hcap.
    destruct (replicate_models_get (model args) w2) as [[v|e'] w'];
      [|destruct (is_Exception e')]; inversion Hcap; reflexivity. }
  rewrite Ht. reflexivity.
Qed.

End WithPlatform.

Lemma ledger_without_columns_aborts_witness :
  fst (fst (track (P := Demo.platform) (R := lcg_random) (args_for 1)
              (Some ledger_without_paths) None 0
              "Melancholic acoustic guitar ballad" rerun_world)) =
    Raise (AttributeError "'bool' object has no attribute 'any'") /\
  fst (fst (track (P := Demo.platform) (R := lcg_random) (args_for 1)
              (Some ledger_without_times) None 0
              "Melancholic acoustic guitar ballad" rerun_world)) =
    Raise (KeyError "generation_time_seconds").
Proof.
  split.
  - rewrite (proj1 (ledger_without_columns_aborts (P := Demo.platform)
                      (R := lcg_random) (args_for 1) None 0
                      "Melancholic acoustic guitar ballad" rerun_world
                      ledger_without_paths) eq_refl).
    reflexivity.
  - rewrite (proj2 (ledger_without_columns_aborts (P := Demo.platform)
                      (R := lcg_random) (args_for 1) None 0
                      "Melancholic acoustic guitar ballad" rerun_world
                      ledger_without_times)
               [CStr "outputs/audio/song_01.wav"] eq_refl eq_refl eq_refl).
    reflexivity.
Defined.

Lemma run_without_ledger_regenerates_witness :
  load_existing (P := Demo.platform) forced_args rerun_world = Ok None /\
  fst (fst (track (P := Demo.platform) (R := lcg_random) forced_args None None 0
              "Melancholic acoustic guitar ballad" rerun_world)) =
    Raise (Exn "ReplicateError" "no response").
Proof.
  split.
  - apply (proj1 (run_without_ledger_regenerates (P := Demo.platform)
                    (R := lcg_random) forced_args None 0
                    "Melancholic acoustic guitar ballad" rerun_world
                    rerun_world)).
    left. reflexivity.
  - apply (proj2 (proj2 (proj2 (run_without_ledger_regenerates (P := Demo.platform)
                    (R := lcg_random) forced_args None 0
                    "Melancholic acoustic guitar ballad" rerun_world
                    rerun_world)))).
    vm_compute. reflexivity.
Defined.

Lemma generate_downloads_first_url_witness :
  fst (fst (generate (P := Demo.platform) (args_for 1)
              "Melancholic acoustic guitar ballad" Demo.song_01
              two_locators_world)) = Ok 0%float.
Proof.
  assert (H : run_model (P := Demo.platform)
                (model (args_for 1)) "Melancholic acoustic guitar ballad" 3 2%float
                (snd (perf_counter (Platform := Demo.platform) two_locators_world)) =
              two_locators_run) by (vm_compute; reflexivity).
  unfold two_locators_run in H.
  rewrite (generate_downloads_first_url (P := Demo.platform)
             (args_for 1) "Melancholic acoustic guitar ballad" Demo.song_01
             two_locators_world _ _ _ _ H).
  vm_compute. reflexivity.
Defined.

Lemma rows_follow_the_prompts_witness :
  match fst (fst rerun_tracks) with
  | Ok rows =>
      List.length rows = 1%nat /\
      exists r, nth_error rows 0 = Some r /\
                row_of_track (args_for 1) 0 "Melancholic acoustic guitar ballad" r
  | Raise _ => False
  end.
Proof.
  assert (H : tracks (P := Demo.platform) (R := lcg_random) (args_for 1)
                (Some earlier_ledger) None 0
                ["Melancholic acoustic guitar ballad"] rerun_world =
              rerun_tracks) by (vm_compute; reflexivity).
  unfold rerun_tracks in *. cbv beta iota delta [fst].
  destruct (rows_follow_the_prompts (P := Demo.platform) (R := lcg_random)
              _ _ _ _ _ _ _ _ _ H) as [Hlen Hrows].
  split; [exact Hlen|]. exact (Hrows 0%nat _ eq_refl).
Defined.

Lemma main_fails_before_generation_witness :
  main (P := Demo.platform) (R := lcg_random) (args_for 1) 0 no_token_world =
    (Raise no_token, no_token_world, []) /\
  main (P := Demo.platform) (R := lcg_random) (args_for (-1)) 0 rerun_world =
    (Raise (ValueError "Sample larger than population or is negative"),
     rerun_world, []).
Proof.
  split.
  - apply (proj1 (main_fails_before_generation (P := Demo.platform)
                    (R := lcg_random) (args_for 1) 0 no_token_world)).
    left. reflexivity.
  - apply (proj2 (main_fails_before_generation (P := Demo.platform)
                    (R := lcg_random) (args_for (-1)) 0 rerun_world)
             "r8_token" rerun_world rerun_world);
      [reflexivity | discriminate | reflexivity | reflexivity | reflexivity].
Defined.

Lemma zero_tracks_empties_ledger_witness :
  Demo.ledger
    (snd (fst (main (P := Demo.platform) (R := lcg_random) (args_for 0) 0
                 rerun_world))) =
  Some {| df_columns := []; df_rows := [] |}.
Proof.
  rewrite (zero_tracks_empties_ledger (P := Demo.platform) (R := lcg_random)
             (args_for 0) 0 rerun_world rerun_world rerun_world rerun_world
             rerun_world "r8_token" None (Some earlier_ledger));
    [reflexivity | reflexivity | discriminate | reflexivity | reflexivity
    | reflexivity | reflexivity | reflexivity | reflexivity].
Defined.

Lemma failed_track_leaves_ledger_unwritten_witness :
  fst (fst (main (P := Demo.platform) (R := lcg_random) (args_for 1) 0
              (Demo.scripted []))) =
    Raise (Exn "ReplicateError" "no response") /\
  Demo.ledger
    (snd (fst (main (P := Demo.platform) (R := lcg_random) (args_for 1) 0
                 (Demo.scripted [])))) = None.
Proof.
  assert (Hp : fst (Prompts.sample_prompts (R := lcg_random)
                      (num_tracks (args_for 1)) (seed (args_for 1)) 0) =
               one_prompt) by (vm_compute; reflexivity).
  assert (Ht : tracks (P := Demo.platform) (R := lcg_random) (args_for 1)
                 None None 0
                 (match one_prompt with Ok ps => ps | Raise _ => [] end)
                 (Demo.scripted []) = silent_tracks)
    by (vm_compute; reflexivity).
  unfold one_prompt in Hp. unfold silent_tracks in Ht.
  rewrite (failed_track_leaves_ledger_unwritten (P := Demo.platform)
             (R := lcg_random) (args_for 1) 0 (Demo.scripted [])
             (Demo.scripted []) (Demo.scripted []) (Demo.scripted []) _
             "r8_token" _ None None _ _
             eq_refl ltac:(discriminate) eq_refl eq_refl Hp eq_refl eq_refl Ht).
  split; reflexivity.
Defined.

End OrchestratorMore.
